(** * vector_lib: lane-level verification of the SSE3 vector backend, the
      generic and SSE2 quaternion operations and the generic 4x4 matrix
      product.

    Scalars are IEEE-754 binary32 values ([float32_t] in the C sources),
    modelled with the Standard Library's executable specification of
    floating-point arithmetic ([SpecFloat], round to nearest even) at
    precision 24 and exponent bound 128.  The specification has a single
    NaN, so NaN payloads are not distinguished; everything else (signed
    zeros, infinities, subnormals, overflow) is as in the hardware. *)

From Stdlib Require Import ZArith Lia Bool List String.
From Stdlib Require Import Floats.SpecFloat.
Import ListNotations.

Local Open Scope Z_scope.

(* ================================================================== *)
(** * binary32 scalars *)
(* ================================================================== *)

Module Float32.

Definition prec : Z := 24.
Definition emax : Z := 128.

Definition float32_t : Type := spec_float.

Definition fadd : float32_t -> float32_t -> float32_t := SFadd prec emax.
Definition fsub : float32_t -> float32_t -> float32_t := SFsub prec emax.
Definition fmul : float32_t -> float32_t -> float32_t := SFmul prec emax.
Definition fdiv : float32_t -> float32_t -> float32_t := SFdiv prec emax.
Definition fsqrt : float32_t -> float32_t := SFsqrt prec emax.
(** C's unary minus: flips the sign bit. *)
Definition fneg : float32_t -> float32_t := SFopp.
(** C's [<], [<=] and [==] on floats (all false on a NaN operand). *)
Definition flt : float32_t -> float32_t -> bool := SFltb.
Definition fle : float32_t -> float32_t -> bool := SFleb.
Definition feq : float32_t -> float32_t -> bool := SFeqb.

(** Integer literals of the C sources ([0], [1], [1.0f], [2.0f], ...). *)
Definition of_Z (n : Z) : float32_t := binary_normalize prec emax n 0 false.

Definition zero : float32_t := S754_zero false.
Definition one : float32_t := Eval cbv in of_Z 1.
Definition two : float32_t := Eval cbv in of_Z 2.
Definition infinity : float32_t := S754_infinity false.
Definition nan : float32_t := S754_nan.

(** A well-formed binary32 datum: canonical mantissa, exponent in range. *)
Definition valid (a : float32_t) : bool := valid_binary prec emax a.

(** Neither an infinity nor a NaN. *)
Definition is_finite (a : float32_t) : bool :=
  match a with
  | S754_zero _ | S754_finite _ _ _ => true
  | S754_infinity _ | S754_nan => false
  end.

Definition is_zero (a : float32_t) : bool :=
  match a with
  | S754_zero _ => true
  | _ => false
  end.

(** Equality up to the sign of a zero: the same datum, or two zeros. *)
Definition same_value (a b : float32_t) : Prop :=
  a = b \/ (is_zero a = true /\ is_zero b = true).

End Float32.

Export Float32.

Declare Scope float32_scope.
Delimit Scope float32_scope with f32.
Bind Scope float32_scope with float32_t.
Infix "+" := fadd : float32_scope.
Infix "-" := fsub : float32_scope.
Infix "*" := fmul : float32_scope.
Infix "/" := fdiv : float32_scope.
Notation "- a" := (fneg a) : float32_scope.
Infix "<?" := flt : float32_scope.
Infix "<=?" := fle : float32_scope.
Infix "==" := feq (at level 70, no associativity) : float32_scope.

(* ================================================================== *)
(** * The 4-lane value and the SSE intrinsics the sources call *)
(* ================================================================== *)

(** [vector_t] (an [__m128] in the SSE backends, a struct of four floats
    in the generic code): lanes x, y, z, w, lowest lane first.  The
    constructor is the C function [vector(x, y, z, w)], which is
    [_mm_setr_ps(x, y, z, w)]. *)
Record vector_t : Type := vector {
  x : float32_t;
  y : float32_t;
  z : float32_t;
  w : float32_t
}.

Definition quaternion_t : Type := vector_t.

Definition _mm_setr_ps (a b c d : float32_t) : vector_t := vector a b c d.
Definition _mm_set1_ps (s : float32_t) : vector_t := vector s s s s.
Definition _mm_set_ps1 (s : float32_t) : vector_t := vector s s s s.
Definition _mm_setzero_ps : vector_t := vector zero zero zero zero.

(** Loads of four consecutive floats; the array is a list, and a read
    past its end (undefined in C) yields NaN. *)
Definition _mm_load_ps (p : list float32_t) : vector_t :=
  vector (nth 0 p nan) (nth 1 p nan) (nth 2 p nan) (nth 3 p nan).
Definition _mm_loadu_ps (p : list float32_t) : vector_t := _mm_load_ps p.

Definition lanewise (f : float32_t -> float32_t -> float32_t)
    (a b : vector_t) : vector_t :=
  vector (f a.(x) b.(x)) (f a.(y) b.(y)) (f a.(z) b.(z)) (f a.(w) b.(w)).

Definition _mm_add_ps : vector_t -> vector_t -> vector_t := lanewise fadd.
Definition _mm_sub_ps : vector_t -> vector_t -> vector_t := lanewise fsub.
Definition _mm_mul_ps : vector_t -> vector_t -> vector_t := lanewise fmul.
Definition _mm_div_ps : vector_t -> vector_t -> vector_t := lanewise fdiv.

(** ADDSUBPS: even lanes subtract, odd lanes add. *)
Definition _mm_addsub_ps (a b : vector_t) : vector_t :=
  vector (a.(x) - b.(x))%f32 (a.(y) + b.(y))%f32
         (a.(z) - b.(z))%f32 (a.(w) + b.(w))%f32.

(** SQRTSS: square root of the lowest lane, upper three lanes copied. *)
Definition _mm_sqrt_ss (a : vector_t) : vector_t :=
  vector (fsqrt a.(x)) a.(y) a.(z) a.(w).

(** The lane a 2-bit selector names. *)
Definition lane (v : vector_t) (sel : Z) : float32_t :=
  match Z.land sel 3 with
  | 0 => v.(x)
  | 1 => v.(y)
  | 2 => v.(z)
  | _ => v.(w)
  end.

(** SHUFPS: the two low lanes are picked from [a], the two high lanes
    from [b], by the four 2-bit fields of the immediate. *)
Definition _mm_shuffle_ps (a b : vector_t) (imm : Z) : vector_t :=
  vector (lane a imm)
         (lane a (Z.shiftr imm 2))
         (lane b (Z.shiftr imm 4))
         (lane b (Z.shiftr imm 6)).

(* ================================================================== *)
(** * Shuffle masks *)
(* ================================================================== *)

Module Mask.

(** Modelled from the spec: the header defining the [VECTOR_MASK_*]
    constants is not among the sources.  The spec describes a mask as a
    compile-time 4-lane selection pattern in which each output lane
    independently selects one input lane, surfaced as named constants;
    the name lists the selected input lane of output lanes 0, 1, 2, 3 in
    that order, and the value is the SHUFPS immediate with those four
    2-bit fields.  The sources fix the reading: [vector_normalize3]
    splices with ZZWW and XYXW to keep the input's w lane, and
    [vector_cross3] permutes with YZXW and ZXYW. *)
Definition VECTOR_MASK (l0 l1 l2 l3 : Z) : Z :=
  Z.lor l0 (Z.lor (Z.shiftl l1 2) (Z.lor (Z.shiftl l2 4) (Z.shiftl l3 6))).

Definition LANE_X : Z := 0.
Definition LANE_Y : Z := 1.
Definition LANE_Z : Z := 2.
Definition LANE_W : Z := 3.

Definition VECTOR_MASK_XXXX : Z := VECTOR_MASK LANE_X LANE_X LANE_X LANE_X.
Definition VECTOR_MASK_YYYY : Z := VECTOR_MASK LANE_Y LANE_Y LANE_Y LANE_Y.
Definition VECTOR_MASK_ZZZZ : Z := VECTOR_MASK LANE_Z LANE_Z LANE_Z LANE_Z.
Definition VECTOR_MASK_WWWW : Z := VECTOR_MASK LANE_W LANE_W LANE_W LANE_W.
Definition VECTOR_MASK_ZZWW : Z := VECTOR_MASK LANE_Z LANE_Z LANE_W LANE_W.
Definition VECTOR_MASK_XYXZ : Z := VECTOR_MASK LANE_X LANE_Y LANE_X LANE_Z.
Definition VECTOR_MASK_XYXW : Z := VECTOR_MASK LANE_X LANE_Y LANE_X LANE_W.
Definition VECTOR_MASK_YZXW : Z := VECTOR_MASK LANE_Y LANE_Z LANE_X LANE_W.
Definition VECTOR_MASK_ZXYW : Z := VECTOR_MASK LANE_Z LANE_X LANE_Y LANE_W.
Definition VECTOR_MASK_YXWZ : Z := VECTOR_MASK LANE_Y LANE_X LANE_W LANE_Z.
Definition VECTOR_MASK_ZWXY : Z := VECTOR_MASK LANE_Z LANE_W LANE_X LANE_Y.
Definition VECTOR_MASK_YWXZ : Z := VECTOR_MASK LANE_Y LANE_W LANE_X LANE_Z.
Definition VECTOR_MASK_YXZW : Z := VECTOR_MASK LANE_Y LANE_X LANE_Z LANE_W.
Definition VECTOR_MASK_ZXWY : Z := VECTOR_MASK LANE_Z LANE_X LANE_W LANE_Y.
Definition VECTOR_MASK_WYXZ : Z := VECTOR_MASK LANE_W LANE_Y LANE_X LANE_Z.
Definition VECTOR_MASK_XYWZ : Z := VECTOR_MASK LANE_X LANE_Y LANE_W LANE_Z.

End Mask.

Export Mask.

(* ================================================================== *)
(** * Assertions of the foundation library *)
(* ================================================================== *)

(** A call that may report assertion failures returns the reported
    messages next to its value.  [FOUNDATION_ASSERT_FAIL] reports
    unconditionally when assertions are compiled in (debug builds) and
    expands to nothing otherwise; execution continues after the report. *)
Definition asserting (A : Type) : Type := (list string * A)%type.

Definition FOUNDATION_ASSERT_FAIL (enable_assert : bool) (msg : string)
    : list string :=
  if enable_assert then [msg] else [].

(* ================================================================== *)
(** * vector_sse3.h *)
(* ================================================================== *)

(** The function form of [vector_shuffle], which the define that follows
    it in the header hides from every later call. *)
Module Hidden.

Definition vector_shuffle (enable_assert : bool) (v : vector_t) (mask : Z)
    : asserting vector_t :=
  (FOUNDATION_ASSERT_FAIL enable_assert "Unreachable code", v).

End Hidden.

(** [#define vector_shuffle( v, mask ) _mm_shuffle_ps( v, v, mask )] *)
Definition vector_shuffle (v : vector_t) (mask : Z) : vector_t :=
  _mm_shuffle_ps v v mask.

Definition vector_aligned (v : list float32_t) : vector_t := _mm_load_ps v.
Definition vector_unaligned (v : list float32_t) : vector_t := _mm_loadu_ps v.
Definition vector_uniform (v : float32_t) : vector_t := _mm_set_ps1 v.
Definition vector_zero : vector_t := _mm_setzero_ps.
Definition vector_one : vector_t := _mm_set1_ps one.
Definition vector_two : vector_t := _mm_set1_ps two.

Definition vector_mul (v0 v1 : vector_t) : vector_t := _mm_mul_ps v0 v1.
Definition vector_div (v0 v1 : vector_t) : vector_t := _mm_div_ps v0 v1.
Definition vector_add (v0 v1 : vector_t) : vector_t := _mm_add_ps v0 v1.
Definition vector_sub (v0 v1 : vector_t) : vector_t := _mm_sub_ps v0 v1.
Definition vector_neg (v : vector_t) : vector_t := _mm_sub_ps _mm_setzero_ps v.
Definition vector_scale (v : vector_t) (s : float32_t) : vector_t :=
  _mm_mul_ps v (_mm_set1_ps s).

Definition vector_dot (v0 v1 : vector_t) : vector_t :=
  let r := _mm_mul_ps v0 v1 in
  _mm_add_ps
    (_mm_add_ps (vector_shuffle r VECTOR_MASK_XXXX)
                (vector_shuffle r VECTOR_MASK_YYYY))
    (_mm_add_ps (vector_shuffle r VECTOR_MASK_ZZZZ)
                (vector_shuffle r VECTOR_MASK_WWWW)).

Definition vector_dot3 (v0 v1 : vector_t) : vector_t :=
  let r := _mm_mul_ps v0 v1 in
  _mm_add_ps
    (_mm_add_ps (vector_shuffle r VECTOR_MASK_XXXX)
                (vector_shuffle r VECTOR_MASK_YYYY))
    (vector_shuffle r VECTOR_MASK_ZZZZ).

Definition vector_cross3 (v0 v1 : vector_t) : vector_t :=
  let v0yzx := vector_shuffle v0 VECTOR_MASK_YZXW in
  let v1yzx := vector_shuffle v1 VECTOR_MASK_YZXW in
  let v0zxy := vector_shuffle v0 VECTOR_MASK_ZXYW in
  let v1zxy := vector_shuffle v1 VECTOR_MASK_ZXYW in
  vector_sub (vector_mul v0yzx v1zxy) (vector_mul v0zxy v1yzx).

Definition vector_length_sqr (v : vector_t) : vector_t := vector_dot v v.
Definition vector_length3_sqr (v : vector_t) : vector_t := vector_dot3 v v.
Definition vector_length (v : vector_t) : vector_t :=
  _mm_sqrt_ss (vector_length_sqr v).
Definition vector_length3 (v : vector_t) : vector_t :=
  _mm_sqrt_ss (vector_length3_sqr v).

(** MINPS and MAXPS: [a < b ? a : b] and [a > b ? a : b] in each lane, so
    the second operand comes back when the comparison is false (a NaN
    operand, or two zeros). *)
Definition _mm_min_ps : vector_t -> vector_t -> vector_t :=
  lanewise (fun a b => if (a <? b)%f32 then a else b).
Definition _mm_max_ps : vector_t -> vector_t -> vector_t :=
  lanewise (fun a b => if (b <? a)%f32 then a else b).

Definition _origo : list float32_t := [zero; zero; zero; one].
Definition vector_origo : vector_t := vector_aligned _origo.

Definition vector_lerp (from to : vector_t) (factor : float32_t) : vector_t :=
  let s := _mm_set1_ps factor in
  _mm_add_ps (_mm_mul_ps s to) (_mm_sub_ps from (_mm_mul_ps s from)).

Definition vector_length_fast (v : vector_t) : vector_t :=
  _mm_sqrt_ss (vector_length_sqr v).
Definition vector_length3_fast (v : vector_t) : vector_t :=
  _mm_sqrt_ss (vector_length3_sqr v).

Definition vector_min (v0 v1 : vector_t) : vector_t := _mm_min_ps v0 v1.
Definition vector_max (v0 v1 : vector_t) : vector_t := _mm_max_ps v0 v1.

Section ReciprocalSqrt.

(** RSQRTPS returns a hardware-defined approximation of 1/sqrt in each
    lane; the per-lane function is left open. *)
Variable rsqrt : float32_t -> float32_t.

Definition _mm_rsqrt_ps (a : vector_t) : vector_t :=
  vector (rsqrt a.(x)) (rsqrt a.(y)) (rsqrt a.(z)) (rsqrt a.(w)).

Definition vector_normalize (v : vector_t) : vector_t :=
  vector_mul v (_mm_rsqrt_ps (vector_dot v v)).

Definition vector_normalize3 (v : vector_t) : vector_t :=
  let norm := vector_mul v (_mm_rsqrt_ps (vector_dot3 v v)) in
  let splice := _mm_shuffle_ps norm v VECTOR_MASK_ZZWW in
  _mm_shuffle_ps norm splice VECTOR_MASK_XYXW.

Definition vector_reflect (v at_ : vector_t) : vector_t :=
  let two := vector_two in
  let normal := vector_normalize at_ in
  let double_proj :=
    vector_mul normal (vector_mul (vector_dot3 normal v) two) in
  vector_sub double_proj v.

End ReciprocalSqrt.

Definition vector_x (v : vector_t) : float32_t := v.(x).
Definition vector_y (v : vector_t) : float32_t := v.(y).
Definition vector_z (v : vector_t) : float32_t := v.(z).
Definition vector_w (v : vector_t) : float32_t := v.(w).

(** Modelled from the spec: [vector_muladd] is called by the SSE2
    [quaternion_rotate] but is not among the sources.  The spec's rotate
    formula [v1 = cross3(q,v) + v*q.w] is what the call
    [vector_muladd(v, qw, v1)] computes, so it is the per-lane
    [v0 * v1 + v2] (SSE2 has no fused multiply-add: two roundings). *)
Definition vector_muladd (v0 v1 v2 : vector_t) : vector_t :=
  _mm_add_ps (_mm_mul_ps v0 v1) v2.

(* ================================================================== *)
(** * quaternion_base.h: the generic quaternion operations *)
(* ================================================================== *)

Module Generic.

Definition quaternion_zero : quaternion_t := vector_zero.
Definition quaternion_unaligned (q : list float32_t) : quaternion_t :=
  vector_unaligned q.
Definition quaternion_aligned (q : list float32_t) : quaternion_t :=
  vector_aligned q.

Definition _identity_quat : list float32_t := [zero; zero; zero; one].

Definition quaternion_identity : quaternion_t :=
  quaternion_aligned _identity_quat.

Definition quaternion_conjugate (q : quaternion_t) : quaternion_t :=
  vector (- q.(x))%f32 (- q.(y))%f32 (- q.(z))%f32 q.(w).

Definition quaternion_inverse (q : quaternion_t) : quaternion_t :=
  let r := q in
  let norm := (vector_length_sqr q).(x) in
  let inv_norm := (one / norm)%f32 in
  let r := vector (r.(x) * - inv_norm)%f32 r.(y) r.(z) r.(w) in
  let r := vector r.(x) (r.(y) * - inv_norm)%f32 r.(z) r.(w) in
  let r := vector r.(x) r.(y) (r.(z) * - inv_norm)%f32 r.(w) in
  let r := vector r.(x) r.(y) r.(z) (r.(w) * inv_norm)%f32 in
  r.

Definition quaternion_neg (q : quaternion_t) : quaternion_t := vector_neg q.

Definition quaternion_mul (q0 q1 : quaternion_t) : quaternion_t :=
  vector
    (q1.(w) * q0.(x) + q1.(x) * q0.(w) + q1.(y) * q0.(z) - q1.(z) * q0.(y))%f32
    (q1.(w) * q0.(y) - q1.(x) * q0.(z) + q1.(y) * q0.(w) + q1.(z) * q0.(x))%f32
    (q1.(w) * q0.(z) + q1.(x) * q0.(y) - q1.(y) * q0.(x) + q1.(z) * q0.(w))%f32
    (q1.(w) * q0.(w) - q1.(x) * q0.(x) - q1.(y) * q0.(y) - q1.(z) * q0.(z))%f32.

Definition quaternion_add (q0 q1 : quaternion_t) : quaternion_t :=
  vector_add q0 q1.
Definition quaternion_sub (q0 q1 : quaternion_t) : quaternion_t :=
  vector_sub q0 q1.

Definition quaternion_normalize (rsqrt : float32_t -> float32_t)
    (q : quaternion_t) : quaternion_t :=
  vector_normalize rsqrt q.

Section Slerp.

(** The math routines and constants of the foundation library, which is
    a separate project: left open.  [real] is [float32_t], the
    library's default. *)
Variable math_acos : float32_t -> float32_t.
Variable math_sin : float32_t -> float32_t.
Variable math_realzero : float32_t -> bool.
Variable REAL_PI : float32_t.

Definition quaternion_slerp (q0 q1 : quaternion_t) (factor : float32_t)
    : quaternion_t :=
  let cosval := (vector_dot q0 q1).(x) in
  let '(qd, cosval) :=
    if (cosval <? zero)%f32
    then let qd := quaternion_neg q1 in (qd, (vector_dot q0 qd).(x))
    else (q1, cosval) in
  (* [None]: the early [return qd] of the inner else branch *)
  let angle :=
    if (- one <? cosval)%f32
    then if (cosval <? one)%f32 then Some (math_acos cosval) else None
    else Some REAL_PI in
  match angle with
  | None => qd
  | Some angle =>
      if math_realzero angle then qd
      else
        let sinval := math_sin angle in
        let invsin := (one / sinval)%f32 in
        let c1 := (math_sin ((one - factor) * angle) * invsin)%f32 in
        let c2 := (math_sin (factor * angle) * invsin)%f32 in
        vector_add (vector_scale q0 c1) (vector_scale qd c2)
  end.

End Slerp.

Definition quaternion_rotate (q : quaternion_t) (v : vector_t) : vector_t :=
  let v1 := vector_cross3 q v in
  let v1 := vector (v1.(x) + v.(x) * q.(w))%f32 v1.(y) v1.(z) v1.(w) in
  let v1 := vector v1.(x) (v1.(y) + v.(y) * q.(w))%f32 v1.(z) v1.(w) in
  let v1 := vector v1.(x) v1.(y) (v1.(z) + v.(z) * q.(w))%f32 v1.(w) in
  let v2 := vector_cross3 v1 q in
  let dot := (q.(x) * v.(x) + q.(y) * v.(y) + q.(z) * v.(z))%f32 in
  vector (q.(x) * dot + v1.(x) * q.(w) - v2.(x))%f32
         (q.(y) * dot + v1.(y) * q.(w) - v2.(y))%f32
         (q.(z) * dot + v1.(z) * q.(w) - v2.(z))%f32
         one.

End Generic.

(* ================================================================== *)
(** * quaternion_sse2.h: the SSE2 overrides *)
(* ================================================================== *)

Module SSE2.

Definition quaternion_conjugate (q : quaternion_t) : quaternion_t :=
  let qneg := vector_neg q in
  let splice := _mm_shuffle_ps qneg q VECTOR_MASK_ZZWW in
  _mm_shuffle_ps qneg splice VECTOR_MASK_XYXZ.

Definition quaternion_inverse (q : quaternion_t) : quaternion_t :=
  let norm := vector_length_sqr q in
  let inv_norm := vector_div vector_one norm in
  let r := vector_mul q inv_norm in
  let rneg := vector_neg r in
  let splice := _mm_shuffle_ps rneg r VECTOR_MASK_ZZWW in
  _mm_shuffle_ps rneg splice VECTOR_MASK_XYXZ.

Definition quaternion_mul (q0 q1 : quaternion_t) : quaternion_t :=
  let q0_wwww := vector_shuffle q0 VECTOR_MASK_WWWW in
  let q1_yxwz := vector_shuffle q1 VECTOR_MASK_YXWZ in
  let q0_xxxx := vector_shuffle q0 VECTOR_MASK_XXXX in
  let q1_zwxy := vector_shuffle q1 VECTOR_MASK_ZWXY in
  let q0_yyyy := vector_shuffle q0 VECTOR_MASK_YYYY in
  let q1_ywxz := vector_shuffle q1 VECTOR_MASK_YWXZ in
  let q0w_q1yxzw := _mm_mul_ps q0_wwww q1_yxwz in
  let q0x_q1zwxy := _mm_mul_ps q0_xxxx q1_zwxy in
  let q0y_q1ywxz := _mm_mul_ps q0_yyyy q1_ywxz in
  let q0_zzzz := vector_shuffle q0 VECTOR_MASK_ZZZZ in
  let q1_yxzw := vector_shuffle q1 VECTOR_MASK_YXZW in
  let q0z_q1yxzw := _mm_mul_ps q0_zzzz q1_yxzw in
  let e := _mm_addsub_ps q0w_q1yxzw q0x_q1zwxy in
  let e := vector_shuffle e VECTOR_MASK_ZXWY in
  let e := _mm_addsub_ps e q0y_q1ywxz in
  let e := vector_shuffle e VECTOR_MASK_WYXZ in
  let e := _mm_addsub_ps e q0z_q1yxzw in
  vector_shuffle e VECTOR_MASK_XYWZ.

Definition quaternion_rotate (q : quaternion_t) (v : vector_t) : vector_t :=
  let v1 := vector_cross3 q v in
  let qw := vector_shuffle q VECTOR_MASK_WWWW in
  let v2 := vector_muladd v qw v1 in
  let v3 := vector_cross3 v2 q in
  let dot := vector_dot q v in
  let v4 := vector_muladd v2 qw (vector_neg v3) in
  let r := vector_muladd q dot v4 in
  r.

End SSE2.

(* ================================================================== *)
(** * matrix_base.h: the generic matrix operations *)
(* ================================================================== *)

(** [matrix_t] is a union of [vector_t row[4]] and [float32_t frow[4][4]]
    over the same sixteen floats, row-major. *)
Record matrix_t : Type := matrix_of_rows {
  row0 : vector_t;
  row1 : vector_t;
  row2 : vector_t;
  row3 : vector_t
}.

Definition row (m : matrix_t) (i : nat) : vector_t :=
  match i with
  | 0 => m.(row0)
  | 1 => m.(row1)
  | 2 => m.(row2)
  | _ => m.(row3)
  end%nat.

Definition component (v : vector_t) (c : nat) : float32_t :=
  match c with
  | 0 => v.(x)
  | 1 => v.(y)
  | 2 => v.(z)
  | _ => v.(w)
  end%nat.

Definition set_component (v : vector_t) (c : nat) (a : float32_t) : vector_t :=
  match c with
  | 0 => vector a v.(y) v.(z) v.(w)
  | 1 => vector v.(x) a v.(z) v.(w)
  | 2 => vector v.(x) v.(y) a v.(w)
  | _ => vector v.(x) v.(y) v.(z) a
  end%nat.

(** [m.frow[r][c]] read and written. *)
Definition frow (m : matrix_t) (r c : nat) : float32_t :=
  component (row m r) c.

Definition set_frow (m : matrix_t) (r c : nat) (a : float32_t) : matrix_t :=
  match r with
  | 0 => matrix_of_rows (set_component m.(row0) c a) m.(row1) m.(row2) m.(row3)
  | 1 => matrix_of_rows m.(row0) (set_component m.(row1) c a) m.(row2) m.(row3)
  | 2 => matrix_of_rows m.(row0) m.(row1) (set_component m.(row2) c a) m.(row3)
  | _ => matrix_of_rows m.(row0) m.(row1) m.(row2) (set_component m.(row3) c a)
  end%nat.

(** [*(const matrix_t* )m]: sixteen consecutive floats seen as a matrix. *)
Definition matrix_aligned (m : list float32_t) : matrix_t :=
  matrix_of_rows (_mm_load_ps m) (_mm_load_ps (skipn 4 m))
                 (_mm_load_ps (skipn 8 m)) (_mm_load_ps (skipn 12 m)).

Definition _zero_matrix : list float32_t := repeat zero 16.

Definition matrix_zero : matrix_t := matrix_aligned _zero_matrix.

Definition _identity_matrix : list float32_t :=
  [ one; zero; zero; zero;
    zero; one; zero; zero;
    zero; zero; one; zero;
    zero; zero; zero; one ].

Definition matrix_identity : matrix_t := matrix_aligned _identity_matrix.

(** [for (int i = 0; i < 4; ++i) body]: the loop state threaded through
    the four iterations. *)
Definition for4 {S : Type} (body : nat -> S -> S) (s : S) : S :=
  fold_left (fun s i => body i s) (seq 0 4) s.

(** The two nested loops of [matrix_mul], started on the given contents
    of the local [r]. *)
Definition matrix_mul_loops (r m0 m1 : matrix_t) : matrix_t :=
  for4 (fun row r =>
    for4 (fun col r =>
      set_frow r row col
        (frow m0 row 0 * frow m1 0 col +
         frow m0 row 1 * frow m1 1 col +
         frow m0 row 2 * frow m1 2 col +
         frow m0 row 3 * frow m1 3 col)%f32) r) r.

(** The local [r] is declared without an initialiser; the loops assign
    all sixteen entries, so its initial contents never reach the result
    ([matrix_mul_loops_init] below) and are taken to be zero. *)
Definition matrix_mul (m0 m1 : matrix_t) : matrix_t :=
  matrix_mul_loops matrix_zero m0 m1.

Definition matrix_unaligned (m : list float32_t) : matrix_t :=
  matrix_of_rows (vector_unaligned m) (vector_unaligned (skipn 4 m))
                 (vector_unaligned (skipn 8 m)) (vector_unaligned (skipn 12 m)).

(** The two nested loops of [matrix_transpose], started on the given
    contents of the local [mt]. *)
Definition matrix_transpose_loops (mt m : matrix_t) : matrix_t :=
  for4 (fun row mt =>
    for4 (fun col mt => set_frow mt row col (frow m col row)) mt) mt.

(** As in [matrix_mul], the local [mt] has no initialiser and every entry
    is assigned ([matrix_transpose_loops_init] below). *)
Definition matrix_transpose (m : matrix_t) : matrix_t :=
  matrix_transpose_loops matrix_zero m.

Definition matrix_add (m0 m1 : matrix_t) : matrix_t :=
  matrix_of_rows (vector_add m0.(row0) m1.(row0)) (vector_add m0.(row1) m1.(row1))
                 (vector_add m0.(row2) m1.(row2)) (vector_add m0.(row3) m1.(row3)).

Definition matrix_sub (m0 m1 : matrix_t) : matrix_t :=
  matrix_of_rows (vector_sub m0.(row0) m1.(row0)) (vector_sub m0.(row1) m1.(row1))
                 (vector_sub m0.(row2) m1.(row2)) (vector_sub m0.(row3) m1.(row3)).

Definition matrix_rotate (m : matrix_t) (v : vector_t) : vector_t :=
  vector
    (frow m 0 0 * v.(x) + frow m 1 0 * v.(y) + frow m 2 0 * v.(z))%f32
    (frow m 0 1 * v.(x) + frow m 1 1 * v.(y) + frow m 2 1 * v.(z))%f32
    (frow m 0 2 * v.(x) + frow m 1 2 * v.(y) + frow m 2 2 * v.(z))%f32
    v.(w).

Definition matrix_transform (m : matrix_t) (v : vector_t) : vector_t :=
  vector
    (frow m 0 0 * v.(x) + frow m 1 0 * v.(y) + frow m 2 0 * v.(z)
     + frow m 3 0 * v.(w))%f32
    (frow m 0 1 * v.(x) + frow m 1 1 * v.(y) + frow m 2 1 * v.(z)
     + frow m 3 1 * v.(w))%f32
    (frow m 0 2 * v.(x) + frow m 1 2 * v.(y) + frow m 2 2 * v.(z)
     + frow m 3 2 * v.(w))%f32
    (frow m 0 3 * v.(x) + frow m 1 3 * v.(y) + frow m 2 3 * v.(z)
     + frow m 3 3 * v.(w))%f32.

(* ================================================================== *)
(** * Reference formulas and predicates the statements use *)
(* ================================================================== *)

(** The spec's Hamilton product, sign pattern as written there:
    x = w1x0+x1w0+y1z0-z1y0, y = w1y0-x1z0+y1w0+z1x0,
    z = w1z0+x1y0-y1x0+z1w0, w = w1w0-x1x0-y1y0-z1z0. *)
Definition hamilton_product (q0 q1 : quaternion_t) : quaternion_t :=
  let '(vector x0 y0 z0 w0) := q0 in
  let '(vector x1 y1 z1 w1) := q1 in
  vector (w1 * x0 + x1 * w0 + y1 * z0 - z1 * y0)%f32
         (w1 * y0 - x1 * z0 + y1 * w0 + z1 * x0)%f32
         (w1 * z0 + x1 * y0 - y1 * x0 + z1 * w0)%f32
         (w1 * w0 - x1 * x0 - y1 * y0 - z1 * z0)%f32.

(** The spec's rotation formula: v1 = cross3(q,v) + v*q.w,
    v2 = cross3(v1,q), dot = q.x*v.x + q.y*v.y + q.z*v.z, and
    q*dot + v1*q.w - v2 in the x, y, z lanes with the w lane set to 1. *)
Definition rotate_formula (q : quaternion_t) (v : vector_t) : vector_t :=
  let v1 := vector_add (vector_cross3 q v) (vector_scale v q.(w)) in
  let v2 := vector_cross3 v1 q in
  let dot := (q.(x) * v.(x) + q.(y) * v.(y) + q.(z) * v.(z))%f32 in
  let r := vector_sub (vector_add (vector_scale q dot) (vector_scale v1 q.(w))) v2 in
  vector r.(x) r.(y) r.(z) one.

(** All four lanes of [r] are the square roots of the lanes of [s]. *)
Definition lanes_are_sqrt_of (r s : vector_t) : Prop :=
  r.(x) = fsqrt s.(x) /\ r.(y) = fsqrt s.(y) /\
  r.(z) = fsqrt s.(z) /\ r.(w) = fsqrt s.(w).

(** A negative zero becomes a positive zero, everything else is kept:
    what [0 - (0 - a)] evaluates to. *)
Definition drop_zero_sign (a : float32_t) : float32_t :=
  match a with
  | S754_zero _ => zero
  | _ => a
  end.

(** A binary32 number: well formed, not an infinity, not a NaN. *)
Definition finite32 (a : float32_t) : bool := valid a && is_finite a.

Definition vector_finite (v : vector_t) : bool :=
  finite32 v.(x) && finite32 v.(y) && finite32 v.(z) && finite32 v.(w).

Definition matrix_finite (m : matrix_t) : bool :=
  vector_finite m.(row0) && vector_finite m.(row1) &&
  vector_finite m.(row2) && vector_finite m.(row3).

(** Lane by lane equality up to the sign of a zero. *)
Definition vector_same (u v : vector_t) : Prop :=
  same_value u.(x) v.(x) /\ same_value u.(y) v.(y) /\
  same_value u.(z) v.(z) /\ same_value u.(w) v.(w).

Definition matrix_same (a b : matrix_t) : Prop :=
  vector_same a.(row0) b.(row0) /\ vector_same a.(row1) b.(row1) /\
  vector_same a.(row2) b.(row2) /\ vector_same a.(row3) b.(row3).

(** Concrete inputs. *)
Definition half : float32_t := Eval cbv in (one / two)%f32.
Definition neg_zero : float32_t := S754_zero true.
(** 2^64: finite, while its square 2^128 is beyond the binary32 range. *)
Definition two_pow_64 : float32_t := S754_finite false 8388608 41.

Definition unit_i : quaternion_t := vector one zero zero zero.
Definition unit_j : quaternion_t := vector zero one zero zero.

(** Slerp as the spec words it: cos = dot(q0,q1); if cos < 0, negate q1
    and cos; if the resulting cos >= 1 return q1 (as corrected); the
    angle is acos(cos) when -1 < cos < 1 and pi otherwise; then the
    interpolation of the sources. *)
Definition slerp_as_specified
    (math_acos math_sin : float32_t -> float32_t)
    (math_realzero : float32_t -> bool) (REAL_PI : float32_t)
    (q0 q1 : quaternion_t) (factor : float32_t) : quaternion_t :=
  let cos := (vector_dot q0 q1).(x) in
  let '(q1, cos) :=
    if (cos <? zero)%f32 then (Generic.quaternion_neg q1, (- cos)%f32)
    else (q1, cos) in
  if (one <=? cos)%f32 then q1
  else
    let angle :=
      if ((- one <? cos) && (cos <? one))%f32 then math_acos cos
      else REAL_PI in
    if math_realzero angle then q1
    else
      let invsin := (one / math_sin angle)%f32 in
      let c0 := (math_sin ((one - factor) * angle) * invsin)%f32 in
      let c1 := (math_sin (factor * angle) * invsin)%f32 in
      vector_add (vector_scale q0 c0) (vector_scale q1 c1).

(** The target and the cosine of [quaternion_slerp] after its
    shortest-path correction, as the sources compute them. *)
Definition slerp_corrected (q0 q1 : quaternion_t)
    : quaternion_t * float32_t :=
  if ((vector_dot q0 q1).(x) <? zero)%f32
  then (Generic.quaternion_neg q1,
        (vector_dot q0 (Generic.quaternion_neg q1)).(x))
  else (q1, (vector_dot q0 q1).(x)).

(** C's [==] on every lane, on every entry. *)
Definition vector_eqb (u v : vector_t) : bool :=
  (u.(x) == v.(x))%f32 && (u.(y) == v.(y))%f32 &&
  (u.(z) == v.(z))%f32 && (u.(w) == v.(w))%f32.

Definition matrix_eqb (a b : matrix_t) : bool :=
  vector_eqb a.(row0) b.(row0) && vector_eqb a.(row1) b.(row1) &&
  vector_eqb a.(row2) b.(row2) && vector_eqb a.(row3) b.(row3).

(** A matrix with one infinite entry, in row 1, column 0. *)
Definition matrix_with_infinity : matrix_t :=
  matrix_of_rows vector_zero (vector infinity zero zero zero)
                 vector_zero vector_zero.

(** The matrix of the integers 1 to 16, row-major. *)
Definition matrix_1_to_16 : matrix_t :=
  matrix_aligned (map (fun n => of_Z (Z.of_nat n)) (seq 1 16)).

(** The quaternion of the test suite: (1, -2, 3, -4). *)
Definition quaternion_test : quaternion_t :=
  Generic.quaternion_aligned [of_Z 1; of_Z (-2); of_Z 3; of_Z (-4)].


Definition is_nan (a : float32_t) : bool :=
  match a with
  | S754_nan => true
  | _ => false
  end.

(** No lane is a NaN. *)
Definition vector_ordered (v : vector_t) : bool :=
  negb (is_nan v.(x)) && negb (is_nan v.(y)) &&
  negb (is_nan v.(z)) && negb (is_nan v.(w)).

(** C's [<=] holds on every lane. *)
Definition vector_leb (u v : vector_t) : bool :=
  (u.(x) <=? v.(x))%f32 && (u.(y) <=? v.(y))%f32 &&
  (u.(z) <=? v.(z))%f32 && (u.(w) <=? v.(w))%f32.

(** The x, y and z lanes agree up to the sign of a zero. *)
Definition vector_same3 (u v : vector_t) : Prop :=
  same_value u.(x) v.(x) /\ same_value u.(y) v.(y) /\
  same_value u.(z) v.(z).

(** Every lane is a well-formed binary32 datum (infinities and NaN
    included). *)
Definition vector_valid (v : vector_t) : bool :=
  valid v.(x) && valid v.(y) && valid v.(z) && valid v.(w).

(** More concrete inputs: the direction (1,2,1,0) and the quaternion -i. *)
Definition direction_1210 : vector_t := vector one two one zero.
Definition unit_i_negated : quaternion_t := vector (- one)%f32 zero zero zero.

(* ================================================================== *)
(** * Lane-level facts *)
(* ================================================================== *)

(** Evaluate shuffles, loads and lane plumbing; leave the arithmetic. *)
Ltac lanes :=
  cbv -[fadd fsub fmul fdiv fsqrt fneg flt fle feq one zero same_value].

Lemma vector_eta (v : vector_t) : vector v.(x) v.(y) v.(z) v.(w) = v.
Proof. destruct v; reflexivity. Qed.

Lemma vector_shuffle_identity (v : vector_t) :
  vector_shuffle v (VECTOR_MASK LANE_X LANE_Y LANE_Z LANE_W) = v.
Proof. destruct v; reflexivity. Qed.

Lemma vector_dot_lanes (v0 v1 : vector_t) :
  vector_dot v0 v1 =
  _mm_set1_ps (v0.(x) * v1.(x) + v0.(y) * v1.(y)
               + (v0.(z) * v1.(z) + v0.(w) * v1.(w)))%f32.
Proof. destruct v0, v1; reflexivity. Qed.

Lemma vector_dot3_lanes (v0 v1 : vector_t) :
  vector_dot3 v0 v1 =
  _mm_set1_ps (v0.(x) * v1.(x) + v0.(y) * v1.(y) + v0.(z) * v1.(z))%f32.
Proof. destruct v0, v1; reflexivity. Qed.

Lemma vector_cross3_lanes (v0 v1 : vector_t) :
  vector_cross3 v0 v1 =
  vector (v0.(y) * v1.(z) - v0.(z) * v1.(y))%f32
         (v0.(z) * v1.(x) - v0.(x) * v1.(z))%f32
         (v0.(x) * v1.(y) - v0.(y) * v1.(x))%f32
         (v0.(w) * v1.(w) - v0.(w) * v1.(w))%f32.
Proof. destruct v0, v1; reflexivity. Qed.

(** The generic product is the spec's formula, operation for operation. *)
Lemma generic_quaternion_mul_hamilton (q0 q1 : quaternion_t) :
  Generic.quaternion_mul q0 q1 = hamilton_product q0 q1.
Proof. destruct q0, q1; reflexivity. Qed.

(** The SSE2 product is the generic product with its operands exchanged,
    operation for operation. *)
Lemma sse2_quaternion_mul_exchanged (q0 q1 : quaternion_t) :
  SSE2.quaternion_mul q0 q1 = Generic.quaternion_mul q1 q0.
Proof. destruct q0, q1; reflexivity. Qed.

(** The generic rotation is the spec's formula on every lane. *)
Lemma generic_quaternion_rotate_formula (q : quaternion_t) (v : vector_t) :
  Generic.quaternion_rotate q v = rotate_formula q v.
Proof. destruct q, v; reflexivity. Qed.

(** The SSE2 rotation: the 4-lane dot product takes the place of the
    3-lane one, and the w lane is what the arithmetic leaves there. *)
Lemma sse2_quaternion_rotate_lanes (q : quaternion_t) (v : vector_t) :
  SSE2.quaternion_rotate q v =
  let v2 := vector_add (vector_mul v (_mm_set1_ps q.(w))) (vector_cross3 q v) in
  let v3 := vector_cross3 v2 q in
  let dot := (vector_dot q v).(x) in
  vector_add (vector_scale q dot)
             (vector_add (vector_scale v2 q.(w)) (vector_neg v3)).
Proof. destruct q, v; reflexivity. Qed.

(* ================================================================== *)
(** * binary32 facts: signs and zeros *)
(* ================================================================== *)

Lemma fneg_involutive (a : float32_t) : (- - a)%f32 = a.
Proof. destruct a as [s|s| |s m e]; simpl; rewrite ?negb_involutive; reflexivity. Qed.

(** [0 - a] flips the sign of [a], except that it sends both zeros to +0. *)
Lemma fsub_zero_l (a : float32_t) :
  (zero - a)%f32 = if is_zero a then zero else (- a)%f32.
Proof. destruct a as [[]|[]| |s m e]; reflexivity. Qed.

Lemma fsub_zero_l_twice (a : float32_t) :
  (zero - (zero - a))%f32 = drop_zero_sign a.
Proof.
  destruct a as [[]|[]| |s m e]; try reflexivity.
  cbn. rewrite negb_involutive. reflexivity.
Qed.

(** A finite number minus itself is +0 (round to nearest). *)
Lemma fsub_diag (a : float32_t) :
  is_finite a = true -> (a - a)%f32 = zero.
Proof.
  destruct a as [[]|s| |s m e]; try discriminate; intros _; try reflexivity.
  unfold fsub, SFsub. rewrite Z.sub_diag. reflexivity.
Qed.

(** An infinity or a NaN minus itself is a NaN. *)
Lemma fsub_diag_not_finite (a : float32_t) :
  is_finite a = false -> (a - a)%f32 = nan.
Proof. destruct a as [s|[]| |s m e]; try discriminate; reflexivity. Qed.

Lemma is_zero_zero : is_zero zero = true.
Proof. reflexivity. Qed.

Lemma is_zero_fneg a : is_zero (- a)%f32 = is_zero a.
Proof. destruct a; reflexivity. Qed.

Lemma flt_zero_nonzero c : (c <? zero)%f32 = true -> is_zero c = false.
Proof. destruct c as [s|s| |s m e]; cbn; congruence. Qed.

Lemma is_zero_inv a : is_zero a = true -> exists s, a = S754_zero s.
Proof. destruct a; try discriminate; eauto. Qed.

(** Replace every datum known to be a zero by a zero of unknown sign. *)
Ltac zeros :=
  repeat match goal with
  | H : is_zero ?a = true |- _ =>
      let s := fresh "s" in
      apply is_zero_inv in H; destruct H as [s H]; subst a
  end.

Lemma is_zero_fmul_l z a :
  is_zero z = true -> is_finite a = true -> is_zero (z * a)%f32 = true.
Proof. intros Hz Ha. zeros. destruct a; try discriminate; reflexivity. Qed.

Lemma is_zero_fmul_r z a :
  is_zero z = true -> is_finite a = true -> is_zero (a * z)%f32 = true.
Proof. intros Hz Ha. zeros. destruct a; try discriminate; reflexivity. Qed.

Lemma is_zero_fadd a b :
  is_zero a = true -> is_zero b = true -> is_zero (a + b)%f32 = true.
Proof. intros Ha Hb. zeros. destruct s, s0; reflexivity. Qed.

Lemma is_zero_fsub a b :
  is_zero a = true -> is_zero b = true -> is_zero (a - b)%f32 = true.
Proof. intros Ha Hb. zeros. destruct s, s0; reflexivity. Qed.

(* ================================================================== *)
(** * binary32 facts: equality up to the sign of a zero *)
(* ================================================================== *)

Lemma same_value_refl a : same_value a a.
Proof. left; reflexivity. Qed.

Lemma same_value_sym a b : same_value a b -> same_value b a.
Proof. intros [->|[? ?]]; [left|right]; auto. Qed.

Lemma same_value_trans a b c : same_value a b -> same_value b c -> same_value a c.
Proof.
  intros [->|[Ha Hb]] [<-|[Hb' Hc]]; try (left; reflexivity); right; auto.
Qed.

Lemma same_value_zeros a b : is_zero a = true -> is_zero b = true -> same_value a b.
Proof. right; auto. Qed.

(** Away from zero, equality up to the sign of a zero is equality. *)
Lemma same_value_nonzero a b : same_value a b -> is_zero b = false -> a = b.
Proof. intros [->|[_ Hb]] Hz; [reflexivity | congruence]. Qed.

(** [+] and [*] respect equality up to the sign of a zero. *)
Lemma fadd_same a a' b b' :
  same_value a a' -> same_value b b' -> same_value (a + b)%f32 (a' + b')%f32.
Proof.
  intros [->|[Ha Ha']] [->|[Hb Hb']]; try apply same_value_refl; zeros.
  - destruct a' as [[]|[]| |sa ma ea], s, s0; cbn; auto using same_value_refl, same_value_zeros.
  - destruct b' as [[]|[]| |sa ma ea], s, s0; cbn; auto using same_value_refl, same_value_zeros.
  - destruct s, s0, s1, s2; cbn; auto using same_value_refl, same_value_zeros.
Qed.

Lemma fmul_same_r a b b' :
  same_value b b' -> same_value (a * b)%f32 (a * b')%f32.
Proof.
  intros [->|[Hb Hb']]; try apply same_value_refl; zeros.
  destruct a as [sa|sa| |sa ma ea]; cbn; auto using same_value_refl, same_value_zeros.
Qed.

Lemma fsub_zero_l_same b : same_value (zero - b)%f32 (- b)%f32.
Proof.
  rewrite fsub_zero_l. destruct b as [s|s| |s m e]; cbn;
    auto using same_value_refl, same_value_zeros.
Qed.

(** Adding or subtracting a zero keeps a finite value, up to the sign
    of a zero. *)
Lemma same_fadd_zero_r a a' b :
  is_finite a = true -> is_zero b = true -> same_value a' a ->
  same_value (a' + b)%f32 a.
Proof.
  intros Hf Hb [->|[Ha' Ha]]; zeros.
  - destruct a as [[]|[]| |sa ma ea], s; try discriminate; cbn;
      auto using same_value_refl, same_value_zeros.
  - destruct s, s0, s1; cbn; auto using same_value_zeros.
Qed.

Lemma same_fadd_zero_l a a' b :
  is_finite a = true -> is_zero b = true -> same_value a' a ->
  same_value (b + a')%f32 a.
Proof.
  intros Hf Hb [->|[Ha' Ha]]; zeros.
  - destruct a as [[]|[]| |sa ma ea], s; try discriminate; cbn;
      auto using same_value_refl, same_value_zeros.
  - destruct s, s0, s1; cbn; auto using same_value_zeros.
Qed.

Lemma same_fsub_zero_r a a' b :
  is_finite a = true -> is_zero b = true -> same_value a' a ->
  same_value (a' - b)%f32 a.
Proof.
  intros Hf Hb [->|[Ha' Ha]]; zeros.
  - destruct a as [[]|[]| |sa ma ea], s; try discriminate; cbn;
      auto using same_value_refl, same_value_zeros.
  - destruct s, s0, s1; cbn; auto using same_value_zeros.
Qed.

(* ================================================================== *)
(** * binary32 facts: rounding commutes with negation *)
(* ================================================================== *)

(** Rounding to nearest even does not look at the sign. *)
Lemma binary_round_aux_negb s m e l :
  binary_round_aux prec emax (negb s) m e l
  = SFopp (binary_round_aux prec emax s m e l).
Proof.
  unfold binary_round_aux.
  destruct (shr_fexp prec emax m e l) as [mrs e'].
  destruct (shr_fexp prec emax _ e' loc_Exact) as [mrs' e''].
  destruct (shr_m mrs'); try reflexivity.
  destruct (e'' <=? emax - prec); reflexivity.
Qed.

Lemma binary_round_negb s m e :
  binary_round prec emax (negb s) m e = SFopp (binary_round prec emax s m e).
Proof.
  unfold binary_round. destruct (shl_align _ _ _). apply binary_round_aux_negb.
Qed.

Lemma binary_normalize_opp n e :
  same_value (binary_normalize prec emax (- n) e false)
             (SFopp (binary_normalize prec emax n e false)).
Proof.
  destruct n as [|p|p]; cbn [Z.opp binary_normalize].
  - apply same_value_zeros; reflexivity.
  - left. apply (binary_round_negb false).
  - left. rewrite (binary_round_negb false), fneg_involutive. reflexivity.
Qed.

Lemma cond_Zopp_negb s n : cond_Zopp (negb s) n = - cond_Zopp s n.
Proof. destruct s; cbn; lia. Qed.

(** The sign of a product is the exclusive or of the signs. *)
Lemma fmul_fneg_r a b : (a * - b)%f32 = (- (a * b))%f32.
Proof.
  destruct a as [sa|sa| |sa ma ea], b as [sb|sb| |sb mb eb];
    try (cbn; rewrite <- ?negb_xorb_r; reflexivity).
  unfold fmul, fneg, SFmul, SFopp.
  rewrite <- negb_xorb_r. apply binary_round_aux_negb.
Qed.

(** -a + -b is -(a + b), except that an exact zero sum is +0 on both
    sides. *)
Lemma fadd_fneg a b : same_value (- a + - b)%f32 (- (a + b))%f32.
Proof.
  destruct a as [sa|sa| |sa ma ea], b as [sb|sb| |sb mb eb];
    try (destruct sa, sb; cbn; auto using same_value_refl, same_value_zeros; fail);
    try (cbn; auto using same_value_refl; fail).
  unfold fadd, fneg, SFadd, SFopp.
  rewrite !cond_Zopp_negb, <- Z.opp_add_distr.
  apply binary_normalize_opp.
Qed.

Lemma fmul_neg_r_same a b : same_value (a * (zero - b))%f32 (- (a * b))%f32.
Proof.
  rewrite <- fmul_fneg_r. apply fmul_same_r, fsub_zero_l_same.
Qed.

Lemma fadd_neg_same (a a' b b' : float32_t) :
  same_value a' (- a)%f32 -> same_value b' (- b)%f32 ->
  same_value (a' + b')%f32 (- (a + b))%f32.
Proof.
  intros Ha Hb. eapply same_value_trans; [apply fadd_same; eassumption|].
  apply fadd_fneg.
Qed.

(* ================================================================== *)
(** * binary32 facts: multiplication by one is exact *)
(* ================================================================== *)

(** 2^23 * m has 23 more binary digits than m. *)
Lemma digits2_pos_shift23 (m : positive) :
  Zpos (digits2_pos (8388608 * m)) = Zpos (digits2_pos m) + 23.
Proof.
  change (8388608 * m)%positive with
    (m~0~0~0~0~0~0~0~0~0~0~0~0~0~0~0~0~0~0~0~0~0~0~0)%positive.
  cbn [digits2_pos]. lia.
Qed.

Lemma bounded_canonical m e : bounded prec emax m e = true ->
  fexp prec emax (Zpos (digits2_pos m) + e) = e /\ e <= emax - prec.
Proof.
  unfold bounded, canonical_mantissa. intros H.
  apply andb_true_iff in H. destruct H as [H1 H2].
  apply Z.eqb_eq in H1. apply Z.leb_le in H2. auto.
Qed.

(** Rounding m * 2^23 at exponent e - 23 gives back the canonical (m, e):
    the 23 bits shifted out are zeros. *)
Lemma round_times_2_23 (s : bool) (m : positive) (e : Z) :
  bounded prec emax m e = true ->
  binary_round_aux prec emax s (Zpos (8388608 * m)) (-23 + e) loc_Exact
  = S754_finite s m e.
Proof.
  intros Hb. destruct (bounded_canonical m e Hb) as [Hc He].
  unfold binary_round_aux, shr_fexp.
  unfold Zdigits2 at 1. rewrite digits2_pos_shift23.
  replace (Z.pos (digits2_pos m) + 23 + (-23 + e)) with (Z.pos (digits2_pos m) + e) by lia.
  rewrite Hc.
  replace (e - (-23 + e)) with 23 by lia.
  change (8388608 * m)%positive with
    (m~0~0~0~0~0~0~0~0~0~0~0~0~0~0~0~0~0~0~0~0~0~0~0)%positive.
  cbn [shr shr_record_of_loc iter_pos shr_1 orb shr_m loc_of_shr_record round_nearest_even].
  replace (-23 + e + 23) with e by lia.
  cbn [Zdigits2]. rewrite Hc, Z.sub_diag.
  cbn [shr shr_m].
  apply Z.leb_le in He. rewrite He. reflexivity.
Qed.

(** 1 is 2^23 * 2^-23, so multiplying by it is exact on every well-formed
    datum. *)
Lemma fmul_one_l a : valid a = true -> (one * a)%f32 = a.
Proof.
  destruct a as [s|s| |s m e]; try reflexivity.
  intros Hv. apply (round_times_2_23 s m e Hv).
Qed.

Lemma fmul_one_r a : valid a = true -> (a * one)%f32 = a.
Proof.
  destruct a as [s|s| |s m e]; try reflexivity; try (destruct s; reflexivity).
  intros Hv. unfold fmul, SFmul, one.
  rewrite Pos.mul_comm, Z.add_comm, xorb_false_r.
  apply (round_times_2_23 s m e Hv).
Qed.

Lemma same_fmul_one_l a : valid a = true -> same_value (one * a)%f32 a.
Proof. intros Hv. left. apply fmul_one_l, Hv. Qed.

Lemma same_fmul_one_r a : valid a = true -> same_value (a * one)%f32 a.
Proof. intros Hv. left. apply fmul_one_r, Hv. Qed.

(* ================================================================== *)
(** * binary32 facts: comparisons *)
(* ================================================================== *)

(** The two tests of [quaternion_slerp], -1 < c and then c < 1, against
    1 <= c: the inner else branch is reached exactly when 1 <= c. *)
Lemma fle_one_branches (c : float32_t) :
  (one <=? c)%f32 = ((- one <? c)%f32 && negb (c <? one)%f32).
Proof.
  destruct c as [[]|[]| |[] m e]; try reflexivity.
  - unfold fle, flt, SFleb, SFltb, SFcompare, one, fneg, SFopp. cbn [negb].
    symmetry; apply andb_false_r.
  - unfold fle, flt, SFleb, SFltb, SFcompare, one, fneg, SFopp. cbn [negb].
    rewrite (Z.compare_antisym e (-23)).
    assert (Hm : Pos.compare_cont Eq 8388608 m
                 = CompOpp (Pos.compare_cont Eq m 8388608))
      by (rewrite Pos.compare_cont_antisym; reflexivity).
    rewrite Hm.
    destruct (e ?= -23); cbn [CompOpp]; try reflexivity.
    destruct (Pos.compare_cont Eq m 8388608); reflexivity.
Qed.

Lemma feq_refl_finite (a : float32_t) : is_finite a = true -> (a == a)%f32 = true.
Proof.
  destruct a as [s|s| |s m e]; try discriminate; intros _; try reflexivity.
  unfold feq, SFeqb, SFcompare.
  rewrite Z.compare_refl, Pos.compare_cont_refl. destruct s; reflexivity.
Qed.

Lemma same_value_feq (a b : float32_t) :
  same_value a b -> is_finite b = true -> (a == b)%f32 = true.
Proof.
  intros [->|[Ha Hb]] Hf; [apply feq_refl_finite, Hf|].
  zeros. reflexivity.
Qed.

(* ================================================================== *)
(** * Finite vectors and matrices *)
(* ================================================================== *)

Lemma finite32_inv a : finite32 a = true -> valid a = true /\ is_finite a = true.
Proof. unfold finite32. intros H. apply andb_true_iff in H. exact H. Qed.

Create HintDb f32 discriminated.
#[local] Hint Resolve is_zero_zero is_zero_fmul_l is_zero_fmul_r is_zero_fadd
  is_zero_fsub same_fmul_one_l same_fmul_one_r same_fadd_zero_r
  same_fadd_zero_l same_fsub_zero_r : f32.

(** Break a finiteness hypothesis down to its lanes. *)
Ltac finite_lanes :=
  repeat match goal with
  | H : (_ && _) = true |- _ => apply andb_true_iff in H; destruct H
  | H : finite32 _ = true |- _ => apply finite32_inv in H; destruct H
  end.

Lemma vector_finite_inv v : vector_finite v = true ->
  (valid v.(x) = true /\ is_finite v.(x) = true) /\
  (valid v.(y) = true /\ is_finite v.(y) = true) /\
  (valid v.(z) = true /\ is_finite v.(z) = true) /\
  (valid v.(w) = true /\ is_finite v.(w) = true).
Proof. unfold vector_finite. intros H. finite_lanes. auto 10. Qed.

Lemma vector_same_eqb (u v : vector_t) :
  vector_same u v -> vector_finite v = true -> vector_eqb u v = true.
Proof.
  intros (Hx & Hy & Hz & Hw) Hv. apply vector_finite_inv in Hv.
  destruct Hv as ((_ & ?) & (_ & ?) & (_ & ?) & (_ & ?)).
  unfold vector_eqb. rewrite !same_value_feq by assumption. reflexivity.
Qed.

Lemma matrix_same_eqb (a b : matrix_t) :
  matrix_same a b -> matrix_finite b = true -> matrix_eqb a b = true.
Proof.
  intros (H0 & H1 & H2 & H3) Hb. unfold matrix_finite in Hb. finite_lanes.
  unfold matrix_eqb. rewrite !vector_same_eqb by assumption. reflexivity.
Qed.

(* ================================================================== *)
(** * The dot product against a negated vector *)
(* ================================================================== *)

(** [vector_neg] is 0 - v lane by lane; every product and every sum of
    the dot product changes sign with it, up to the sign of a zero. *)
Lemma vector_dot_neg_same (q0 q1 : vector_t) :
  same_value (vector_dot q0 (vector_neg q1)).(x)
             (- (vector_dot q0 q1).(x))%f32.
Proof.
  rewrite !vector_dot_lanes. destruct q0 as [a0 b0 c0 d0], q1 as [a1 b1 c1 d1].
  cbn [x y z w _mm_set1_ps vector_neg _mm_sub_ps lanewise _mm_setzero_ps].
  repeat apply fadd_neg_same; apply fmul_neg_r_same.
Qed.

Lemma vector_dot_neg (q0 q1 : vector_t) :
  ((vector_dot q0 q1).(x) <? zero)%f32 = true ->
  (vector_dot q0 (vector_neg q1)).(x) = (- (vector_dot q0 q1).(x))%f32.
Proof.
  intros Hneg. apply same_value_nonzero; [apply vector_dot_neg_same|].
  rewrite is_zero_fneg. apply flt_zero_nonzero, Hneg.
Qed.

(* ================================================================== *)
(** * The loops of the matrix product *)
(* ================================================================== *)

(** The loops of [matrix_mul] overwrite every entry of [r]. *)
Lemma matrix_mul_loops_init (r r' m0 m1 : matrix_t) :
  matrix_mul_loops r m0 m1 = matrix_mul_loops r' m0 m1.
Proof. destruct r, r', m0, m1; reflexivity. Qed.

(** The product entry by entry:
    r[row][col] = sum over k of m0[row][k] * m1[k][col], added left to
    right. *)
Lemma matrix_mul_frow (m0 m1 : matrix_t) (i j : nat) :
  (i < 4)%nat -> (j < 4)%nat ->
  frow (matrix_mul m0 m1) i j =
  (frow m0 i 0 * frow m1 0 j + frow m0 i 1 * frow m1 1 j +
   frow m0 i 2 * frow m1 2 j + frow m0 i 3 * frow m1 3 j)%f32.
Proof.
  intros Hi Hj.
  destruct m0 as [[? ? ? ?] [? ? ? ?] [? ? ? ?] [? ? ? ?]],
           m1 as [[? ? ? ?] [? ? ? ?] [? ? ? ?] [? ? ? ?]].
  do 4 (destruct i as [|i]; [do 4 (destruct j as [|j]; [reflexivity|]); lia|]).
  lia.
Qed.

(* ================================================================== *)
(** * The checks of the quaternion test suite, and the mask encoding *)
(* ================================================================== *)

Example test_quaternion_construct :
  Generic.quaternion_zero = vector_zero /\
  Generic.quaternion_identity = vector (of_Z 0) (of_Z 0) (of_Z 0) (of_Z 1) /\
  Generic.quaternion_unaligned [of_Z 1; of_Z (-2); of_Z 3; of_Z (-4)]
    = vector (of_Z 1) (of_Z (-2)) (of_Z 3) (of_Z (-4)).
Proof. repeat split. Qed.

Example test_quaternion_ops_conjugate :
  Generic.quaternion_conjugate quaternion_test
    = vector (of_Z (-1)) (of_Z 2) (of_Z (-3)) (of_Z (-4)) /\
  SSE2.quaternion_conjugate quaternion_test
    = vector (of_Z (-1)) (of_Z 2) (of_Z (-3)) (of_Z (-4)).
Proof. split; vm_compute; reflexivity. Qed.

(** [quaternion_inverse] divides by |q|^2 = 30; the generic inverse of
    (1,-2,3,-4) is (-1/30, 2/30, -3/30, -4/30) with 1/30 rounded once. *)
Example test_quaternion_ops_inverse :
  let r := (one / of_Z 30)%f32 in
  Generic.quaternion_inverse quaternion_test
    = vector (of_Z 1 * - r)%f32 (of_Z (-2) * - r)%f32
             (of_Z 3 * - r)%f32 (of_Z (-4) * r)%f32.
Proof. vm_compute. reflexivity. Qed.

(** YZXW is the familiar immediate 0xC9 of the SSE cross product. *)
Example mask_yzxw_value : VECTOR_MASK_YZXW = 201 /\ VECTOR_MASK_WWWW = 255.
Proof. split; reflexivity. Qed.

Example shuffle_yzxw (a b c d : float32_t) :
  vector_shuffle (vector a b c d) VECTOR_MASK_YZXW = vector b c a d.
Proof. reflexivity. Qed.

(* ================================================================== *)
(** * Quaternion product (C1) *)
(* ================================================================== *)

(** C1.  The claim asks for the spec's sign pattern from both
    implementations.  The generic [quaternion_mul] has it for every pair
    of quaternions.  The SSE2 one computes, for every pair, the spec's
    product of the operands exchanged, so its cross terms come out with
    the opposite sign: at q0 = i = (1,0,0,0) and q1 = j = (0,1,0,0) the
    spec's formula and the generic code give (0,0,-1,0), the SSE2 code
    gives (0,0,1,0). *)
Theorem sse2_quaternion_mul_sign_pattern :
  (forall q0 q1, Generic.quaternion_mul q0 q1 = hamilton_product q0 q1) /\
  (forall q0 q1, SSE2.quaternion_mul q0 q1 = hamilton_product q1 q0) /\
  hamilton_product unit_i unit_j = vector zero zero (- one)%f32 zero /\
  Generic.quaternion_mul unit_i unit_j = vector zero zero (- one)%f32 zero /\
  SSE2.quaternion_mul unit_i unit_j = vector zero zero one zero.
Proof.
  split; [exact generic_quaternion_mul_hamilton|].
  split.
  - intros q0 q1. rewrite sse2_quaternion_mul_exchanged.
    apply generic_quaternion_mul_hamilton.
  - repeat split; vm_compute; reflexivity.
Qed.

(* ================================================================== *)
(** * Rotation of a vector by a quaternion (C2) *)
(* ================================================================== *)

(** C2.  The claim asks both implementations for the spec's formula with
    the w lane set to 1.  The generic [quaternion_rotate] is that formula
    for every q and v.  The SSE2 one uses the 4-lane dot product and
    never stores 1 in the w lane ([sse2_quaternion_rotate_lanes]): for
    the unit quaternion q = (1/2,1/2,1/2,1/2) and the point v = (1,0,0,1)
    the formula and the generic code give (0,1,0,1), the SSE2 code gives
    (1/4, 5/4, 1/4, 3/4). *)
Theorem sse2_quaternion_rotate_diverges :
  (forall q v, Generic.quaternion_rotate q v = rotate_formula q v) /\
  (forall q v, (Generic.quaternion_rotate q v).(w) = one) /\
  let q := vector half half half half in
  let v := vector one zero zero one in
  rotate_formula q v = vector zero one zero one /\
  Generic.quaternion_rotate q v = vector zero one zero one /\
  SSE2.quaternion_rotate q v =
    vector (half * half)%f32 (one + half * half)%f32
           (half * half)%f32 (half + half * half)%f32.
Proof.
  split; [exact generic_quaternion_rotate_formula|].
  split; [reflexivity|].
  repeat split; vm_compute; reflexivity.
Qed.

(* ================================================================== *)
(** * Lengths (C3) *)
(* ================================================================== *)

(** C3, as stated, fails: for v = (2,0,0,0) the squared length is 4 in
    every lane, and [vector_length] has 2 in lane 0 only; lanes 1 to 3
    still hold 4, which is not sqrt 4.  The same holds for
    [vector_length3]. *)
Lemma vector_length_not_broadcast :
  ~ lanes_are_sqrt_of (vector_length (vector two zero zero zero))
                      (vector_length_sqr (vector two zero zero zero)) /\
  ~ lanes_are_sqrt_of (vector_length3 (vector two zero zero zero))
                      (vector_length3_sqr (vector two zero zero zero)).
Proof.
  split; intros (_ & Hy & _); vm_compute in Hy; discriminate Hy.
Qed.

(** C3, amended.  Lane 0 of [vector_length v] is the square root of lane 0
    of [vector_length_sqr v]; lanes 1, 2 and 3 are the lanes of
    [vector_length_sqr v] themselves (the squared length, no root taken).
    Likewise for [vector_length3] against [vector_length3_sqr]. *)
Theorem vector_length_lanes (v : vector_t) :
  vector_length v =
    vector (fsqrt (vector_length_sqr v).(x)) (vector_length_sqr v).(y)
           (vector_length_sqr v).(z) (vector_length_sqr v).(w) /\
  vector_length3 v =
    vector (fsqrt (vector_length3_sqr v).(x)) (vector_length3_sqr v).(y)
           (vector_length3_sqr v).(z) (vector_length3_sqr v).(w).
Proof. split; reflexivity. Qed.

(* ================================================================== *)
(** * Spherical interpolation (C4) *)
(* ================================================================== *)

Section SlerpFacts.

Variables math_acos math_sin : float32_t -> float32_t.
Variable math_realzero : float32_t -> bool.
Variable REAL_PI : float32_t.

(** The cosine recomputed against the negated target is the exact
    negation of the first cosine. *)
Lemma quaternion_slerp_corrected_cosine (q0 q1 : quaternion_t) :
  ((vector_dot q0 q1).(x) <? zero)%f32 = true ->
  slerp_corrected q0 q1 =
    (Generic.quaternion_neg q1, (- (vector_dot q0 q1).(x))%f32).
Proof.
  intros Hneg. unfold slerp_corrected, Generic.quaternion_neg. rewrite Hneg.
  rewrite (vector_dot_neg q0 q1 Hneg). reflexivity.
Qed.

(** Coincident inputs: the corrected target comes back, whatever the
    factor is. *)
Lemma quaternion_slerp_coincident (q0 q1 : quaternion_t) (t : float32_t) :
  (one <=? snd (slerp_corrected q0 q1))%f32 = true ->
  Generic.quaternion_slerp math_acos math_sin math_realzero REAL_PI q0 q1 t
  = fst (slerp_corrected q0 q1).
Proof.
  unfold slerp_corrected, Generic.quaternion_slerp.
  destruct ((vector_dot q0 q1).(x) <? zero)%f32; cbn [fst snd];
    rewrite fle_one_branches; intros H;
    apply andb_true_iff in H; destruct H as [H1 H2];
    apply negb_true_iff in H2; rewrite H1, H2; reflexivity.
Qed.

(** C4.  [quaternion_slerp] is the algorithm the claim describes, for all
    inputs and every factor: the cosine is the x lane of
    [vector_dot q0 q1]; when it is negative the target becomes
    [quaternion_neg q1] and the cosine its negation; when the resulting
    cosine is at least 1 the (corrected) target is returned before the
    factor is looked at; [math_acos] is applied only when
    -1 < cosine < 1. *)
Theorem quaternion_slerp_as_specified
    (q0 q1 : quaternion_t) (factor : float32_t) :
  Generic.quaternion_slerp math_acos math_sin math_realzero REAL_PI
    q0 q1 factor
  = slerp_as_specified math_acos math_sin math_realzero REAL_PI
      q0 q1 factor.
Proof.
  unfold Generic.quaternion_slerp, slerp_as_specified.
  destruct ((vector_dot q0 q1).(x) <? zero)%f32 eqn:Hneg.
  - unfold Generic.quaternion_neg. rewrite (vector_dot_neg q0 q1 Hneg).
    set (c := (- (vector_dot q0 q1).(x))%f32).
    rewrite fle_one_branches.
    destruct (- one <? c)%f32, (c <? one)%f32; reflexivity.
  - set (c := (vector_dot q0 q1).(x)).
    rewrite fle_one_branches.
    destruct (- one <? c)%f32, (c <? one)%f32; reflexivity.
Qed.

End SlerpFacts.

(* ================================================================== *)
(** * The identity matrix (C5) *)
(* ================================================================== *)

(** C5, as stated, fails: an infinite entry of m meets a zero of the
    identity, and 0 * infinity is a NaN.  With infinity in row 1,
    column 0 and zeros elsewhere, entry (0,0) of identity * m is
    1*0 + 0*infinity + 0*0 + 0*0 = NaN, not the 0 of m. *)
Lemma matrix_identity_infinite_entry :
  frow matrix_with_infinity 0 0 = zero /\
  frow (matrix_mul matrix_identity matrix_with_infinity) 0 0 = nan /\
  matrix_mul matrix_identity matrix_with_infinity <> matrix_with_infinity /\
  matrix_mul matrix_with_infinity matrix_identity <> matrix_with_infinity /\
  matrix_eqb (matrix_mul matrix_identity matrix_with_infinity)
             matrix_with_infinity = false /\
  matrix_eqb (matrix_mul matrix_with_infinity matrix_identity)
             matrix_with_infinity = false.
Proof. vm_compute. repeat split; discriminate. Qed.

(** Why "up to the sign of a zero": a negative zero entry is added to the
    positive zeros the identity produces, and -0 + +0 is +0. *)
Lemma matrix_identity_negative_zero :
  let m := matrix_of_rows (vector neg_zero zero zero zero)
                          vector_zero vector_zero vector_zero in
  matrix_finite m = true /\
  frow (matrix_mul matrix_identity m) 0 0 = zero /\
  frow (matrix_mul m matrix_identity) 0 0 = zero.
Proof. vm_compute. repeat split. Qed.

(** C5, amended.  For every matrix m whose sixteen entries are finite
    binary32 numbers, every entry of [matrix_mul matrix_identity m] and
    of [matrix_mul m matrix_identity] is the same entry of m up to the
    sign of a zero (a nonzero entry is reproduced exactly, a zero comes
    back as a zero); so both products compare equal to m with [==]. *)
Theorem matrix_identity_two_sided (m : matrix_t) :
  matrix_finite m = true ->
  (matrix_same (matrix_mul matrix_identity m) m /\
   matrix_same (matrix_mul m matrix_identity) m) /\
  (matrix_eqb (matrix_mul matrix_identity m) m = true /\
   matrix_eqb (matrix_mul m matrix_identity) m = true).
Proof.
  intros Hm.
  assert (Hsame : matrix_same (matrix_mul matrix_identity m) m /\
                  matrix_same (matrix_mul m matrix_identity) m).
  { unfold matrix_finite in Hm.
    destruct m as [[a00 a01 a02 a03] [a10 a11 a12 a13]
                   [a20 a21 a22 a23] [a30 a31 a32 a33]].
    cbn [row0 row1 row2 row3] in Hm. unfold vector_finite in Hm.
    cbn [x y z w] in Hm. finite_lanes.
    split; lanes; repeat split; auto 8 with f32. }
  split; [exact Hsame|].
  destruct Hsame; split; apply matrix_same_eqb; assumption.
Qed.

(** The theorem at the matrix of the integers 1 to 16. *)
Lemma matrix_identity_two_sided_witness :
  matrix_finite matrix_1_to_16 = true /\
  (matrix_same (matrix_mul matrix_identity matrix_1_to_16) matrix_1_to_16 /\
   matrix_same (matrix_mul matrix_1_to_16 matrix_identity) matrix_1_to_16) /\
  (matrix_eqb (matrix_mul matrix_identity matrix_1_to_16) matrix_1_to_16
     = true /\
   matrix_eqb (matrix_mul matrix_1_to_16 matrix_identity) matrix_1_to_16
     = true).
Proof.
  split; [reflexivity|].
  apply (matrix_identity_two_sided matrix_1_to_16). reflexivity.
Defined.

(* ================================================================== *)
(** * Normalisation of the x, y, z lanes (C6) *)
(* ================================================================== *)

(** C6.  [vector_normalize3 v] multiplies the x, y and z lanes by the
    reciprocal square root of x*x + y*y + z*z and returns the w lane of
    [v] itself, whatever the reciprocal square root approximation is. *)
Theorem vector_normalize3_preserves_w
    (rsqrt : float32_t -> float32_t) (v : vector_t) :
  let s := rsqrt (v.(x) * v.(x) + v.(y) * v.(y) + v.(z) * v.(z))%f32 in
  vector_normalize3 rsqrt v =
    vector (v.(x) * s)%f32 (v.(y) * s)%f32 (v.(z) * s)%f32 v.(w) /\
  (vector_normalize3 rsqrt v).(w) = v.(w).
Proof. destruct v; split; reflexivity. Qed.

(* ================================================================== *)
(** * Conjugation twice (C7) *)
(* ================================================================== *)

(** C7, as stated, fails for the SSE2 implementation: it negates by
    [0 - q], which turns a negative zero into a positive zero and leaves
    it there.  q = (-0, 0, 0, 1) comes back as (+0, 0, 0, 1). *)
Lemma sse2_conjugate_twice_negative_zero :
  SSE2.quaternion_conjugate
    (SSE2.quaternion_conjugate (vector neg_zero zero zero one))
  <> vector neg_zero zero zero one.
Proof. vm_compute. discriminate. Qed.

(** C7, amended.  The generic [quaternion_conjugate] applied twice gives
    back q exactly, for every q.  The SSE2 one applied twice gives back q
    with every negative zero among the x, y, z lanes replaced by a
    positive zero; every other lane, and the w lane always, is exactly
    that of q. *)
Theorem quaternion_conjugate_twice (q : quaternion_t) :
  Generic.quaternion_conjugate (Generic.quaternion_conjugate q) = q /\
  SSE2.quaternion_conjugate (SSE2.quaternion_conjugate q) =
    vector (drop_zero_sign q.(x)) (drop_zero_sign q.(y))
           (drop_zero_sign q.(z)) q.(w).
Proof.
  destruct q as [a b c d]; split.
  - unfold Generic.quaternion_conjugate; cbn [x y z w].
    rewrite !fneg_involutive. reflexivity.
  - lanes. rewrite !fsub_zero_l_twice. reflexivity.
Qed.

(* ================================================================== *)
(** * The hidden function form of vector_shuffle (C8) *)
(* ================================================================== *)

(** C8.  The function form of [vector_shuffle] returns its input vector
    unchanged for every vector and every mask, after reporting the
    assertion failure "Unreachable code" when assertions are compiled in
    (and reporting nothing when they are not). *)
Theorem vector_shuffle_function_returns_input
    (enable_assert : bool) (v : vector_t) (mask : Z) :
  snd (Hidden.vector_shuffle enable_assert v mask) = v /\
  fst (Hidden.vector_shuffle true v mask) = ["Unreachable code"%string] /\
  fst (Hidden.vector_shuffle false v mask) = [].
Proof. repeat split. Qed.

(* ================================================================== *)
(** * The identity quaternion (C9) *)
(* ================================================================== *)

(** C9, as stated, fails: an infinite lane of q meets a zero of the
    identity.  For q = (0,0,0,infinity) the x lane of
    [quaternion_mul q identity] is 1*0 + 0*infinity + 0*0 - 0*0 = NaN. *)
Lemma quaternion_identity_infinite_lane :
  let q := vector zero zero zero infinity in
  (Generic.quaternion_mul q Generic.quaternion_identity).(x) = nan /\
  Generic.quaternion_mul q Generic.quaternion_identity <> q /\
  Generic.quaternion_mul Generic.quaternion_identity q <> q.
Proof. vm_compute. repeat split; discriminate. Qed.

(** Why "up to the sign of a zero": for the finite q = (-0,0,0,0) both
    products are (+0,0,0,0). *)
Lemma quaternion_identity_negative_zero :
  let q := vector neg_zero zero zero zero in
  vector_finite q = true /\
  Generic.quaternion_mul q Generic.quaternion_identity = vector_zero /\
  Generic.quaternion_mul Generic.quaternion_identity q = vector_zero.
Proof. vm_compute. repeat split. Qed.

(** C9, amended.  [quaternion_identity] is (0,0,0,1), and for every
    quaternion q whose four lanes are finite binary32 numbers, every lane
    of [quaternion_mul q identity] and of [quaternion_mul identity q] is
    the same lane of q up to the sign of a zero (a nonzero lane is
    reproduced exactly); so both products compare equal to q with
    [==]. *)
Theorem quaternion_identity_two_sided (q : quaternion_t) :
  vector_finite q = true ->
  Generic.quaternion_identity = vector zero zero zero one /\
  (vector_same (Generic.quaternion_mul q Generic.quaternion_identity) q /\
   vector_same (Generic.quaternion_mul Generic.quaternion_identity q) q) /\
  (vector_eqb (Generic.quaternion_mul q Generic.quaternion_identity) q
     = true /\
   vector_eqb (Generic.quaternion_mul Generic.quaternion_identity q) q
     = true).
Proof.
  intros Hq. split; [reflexivity|].
  assert (Hsame :
    vector_same (Generic.quaternion_mul q Generic.quaternion_identity) q /\
    vector_same (Generic.quaternion_mul Generic.quaternion_identity q) q).
  { apply vector_finite_inv in Hq.
    destruct q as [a b c d]; cbn [x y z w] in Hq.
    destruct Hq as ((? & ?) & (? & ?) & (? & ?) & (? & ?)).
    split; lanes; repeat split; auto 8 with f32. }
  split; [exact Hsame|].
  destruct Hsame; split; apply vector_same_eqb; assumption.
Qed.

(** The theorem at the quaternion (1,-2,3,-4) of the test suite. *)
Lemma quaternion_identity_two_sided_witness :
  vector_finite quaternion_test = true /\
  Generic.quaternion_identity = vector zero zero zero one /\
  (vector_same
     (Generic.quaternion_mul quaternion_test Generic.quaternion_identity)
     quaternion_test /\
   vector_same
     (Generic.quaternion_mul Generic.quaternion_identity quaternion_test)
     quaternion_test) /\
  (vector_eqb
     (Generic.quaternion_mul quaternion_test Generic.quaternion_identity)
     quaternion_test = true /\
   vector_eqb
     (Generic.quaternion_mul Generic.quaternion_identity quaternion_test)
     quaternion_test = true).
Proof.
  split; [reflexivity|].
  apply (quaternion_identity_two_sided quaternion_test). reflexivity.
Defined.

(* ================================================================== *)
(** * The w lane of the cross product (C10) *)
(* ================================================================== *)

(** C10, as stated, fails: finite w lanes can have a product beyond the
    binary32 range.  With v0.w = v1.w = 2^64 the product rounds to
    +infinity twice, and infinity - infinity is a NaN. *)
Lemma vector_cross3_w_overflow :
  let v := vector zero zero zero two_pow_64 in
  finite32 v.(w) = true /\ (vector_cross3 v v).(w) = nan /\
  (vector_cross3 v v).(w) <> zero.
Proof. vm_compute. repeat split. discriminate. Qed.

(** The w lane in full: +0 when the rounded product of the w lanes is
    finite, NaN when it is not. *)
Lemma vector_cross3_w_cases (v0 v1 : vector_t) :
  (vector_cross3 v0 v1).(w) =
  if is_finite (v0.(w) * v1.(w))%f32 then zero else nan.
Proof.
  rewrite vector_cross3_lanes; cbn [w].
  destruct (is_finite (v0.(w) * v1.(w))%f32) eqn:Hfin.
  - apply fsub_diag, Hfin.
  - apply fsub_diag_not_finite, Hfin.
Qed.

(** C10, amended.  The w lane of [vector_cross3 v0 v1] is exactly +0 for
    all inputs whose rounded product v0.w * v1.w is finite (finite w
    lanes whose product does not overflow). *)
Theorem vector_cross3_w_zero (v0 v1 : vector_t) :
  is_finite (v0.(w) * v1.(w))%f32 = true ->
  (vector_cross3 v0 v1).(w) = zero.
Proof.
  intros Hfin. rewrite vector_cross3_lanes; cbn [w].
  apply fsub_diag, Hfin.
Qed.

(** The theorem at v0 = (1,2,1,2), v1 = (2,1,1,1/2). *)
Lemma vector_cross3_w_zero_witness :
  is_finite ((vector one two one two).(w) * (vector two one one half).(w))%f32
    = true /\
  (vector_cross3 (vector one two one two) (vector two one one half)).(w) = zero.
Proof.
  split; [reflexivity | apply vector_cross3_w_zero; reflexivity].
Defined.

(* ================================================================== *)
(** * Further binary32 facts: commutativity, order, sign *)
(* ================================================================== *)

Lemma fmul_comm a b : (a * b)%f32 = (b * a)%f32.
Proof.
  destruct a as [sa|sa| |sa ma ea], b as [sb|sb| |sb mb eb];
    try reflexivity; try (cbn; rewrite xorb_comm; reflexivity).
  unfold fmul, SFmul. rewrite xorb_comm, Pos.mul_comm, Z.add_comm. reflexivity.
Qed.

Lemma fadd_comm a b : (a + b)%f32 = (b + a)%f32.
Proof.
  destruct a as [sa|sa| |sa ma ea], b as [sb|sb| |sb mb eb];
    try reflexivity; try (destruct sa, sb; reflexivity).
  unfold fadd, SFadd. rewrite Z.min_comm, Z.add_comm. reflexivity.
Qed.

(** Subtraction is addition of the operand with its sign flipped. *)
Lemma fsub_fadd_fneg a b : (a - b)%f32 = (a + - b)%f32.
Proof.
  destruct a as [sa|sa| |sa ma ea], b as [sb|sb| |sb mb eb];
    try reflexivity; destruct sa, sb; reflexivity.
Qed.

Lemma fmul_fneg_l a b : (- a * b)%f32 = (- (a * b))%f32.
Proof. rewrite fmul_comm, fmul_fneg_r, fmul_comm. reflexivity. Qed.

Lemma fsub_antisym a b : same_value (b - a)%f32 (- (a - b))%f32.
Proof.
  rewrite !fsub_fadd_fneg.
  eapply same_value_trans; [|apply fadd_fneg].
  rewrite fneg_involutive, fadd_comm. apply same_value_refl.
Qed.

(** Subtracting +0 changes nothing at all; adding a zero can only change
    the sign of a zero. *)
Lemma fsub_zero_r (a : float32_t) : (a - zero)%f32 = a.
Proof. destruct a as [[]|[]| |s m e]; reflexivity. Qed.

Lemma same_fadd_zero_any a b : is_zero b = true -> same_value (a + b)%f32 a.
Proof.
  intros Hb. zeros. destruct a as [[]|[]| |sa ma ea], s; cbn;
    auto using same_value_refl, same_value_zeros.
Qed.

Lemma same_value_finite a a' :
  same_value a' a -> is_finite a = true -> is_finite a' = true.
Proof. intros [->|[Ha' _]] Hf; [exact Hf|]. zeros. reflexivity. Qed.

Lemma same_value_valid a a' :
  same_value a' a -> valid a = true -> valid a' = true.
Proof. intros [->|[Ha' _]] Hf; [exact Hf|]. zeros. reflexivity. Qed.

Lemma is_zero_finite a : is_zero a = true -> is_finite a = true.
Proof. destruct a; try discriminate; reflexivity. Qed.

#[local] Hint Resolve same_value_refl same_fadd_zero_any : f32.

Lemma is_finite_zero_plus a z :
  valid a = true -> is_finite a = true -> is_zero z = true ->
  is_finite (z + a * one)%f32 = true.
Proof.
  intros Hv Hf Hz. rewrite (fmul_one_r a Hv).
  apply (same_value_finite a); auto with f32.
Qed.

Lemma same_fmul_one_r_zero a z :
  valid a = true -> is_finite a = true -> is_zero z = true ->
  same_value ((z + a * one) * one)%f32 a.
Proof.
  intros Hv Hf Hz. rewrite (fmul_one_r a Hv).
  assert (Hs : same_value (z + a)%f32 a) by auto with f32.
  eapply same_value_trans; [|exact Hs].
  apply same_fmul_one_r. eapply same_value_valid; eassumption.
Qed.

#[local] Hint Resolve is_zero_finite is_finite_zero_plus
  same_fmul_one_r_zero : f32.





Lemma flt_fneg_negative c : (c <? zero)%f32 = true -> (- c <? zero)%f32 = false.
Proof. destruct c as [[]|[]| |[] m e]; try discriminate; reflexivity. Qed.

(** Exchanging the operands of a comparison reverses its outcome. *)
Lemma fcompare_antisym a b :
  SFcompare b a = option_map CompOpp (SFcompare a b).
Proof.
  destruct a as [sa|sa| |sa ma ea], b as [sb|sb| |sb mb eb];
    try reflexivity; try (destruct sa; reflexivity);
    try (destruct sb; reflexivity); try (destruct sa, sb; reflexivity).
  unfold SFcompare, option_map. f_equal.
  rewrite (Z.compare_antisym ea eb).
  assert (Hm : Pos.compare_cont Eq mb ma = CompOpp (Pos.compare_cont Eq ma mb))
    by (rewrite Pos.compare_cont_antisym; reflexivity).
  rewrite Hm.
  destruct sa, sb; try reflexivity;
    destruct (ea ?= eb); cbn [CompOpp]; try reflexivity;
    destruct (Pos.compare_cont Eq ma mb); reflexivity.
Qed.

Lemma fcompare_ordered a b :
  is_nan a = false -> is_nan b = false -> SFcompare a b <> None.
Proof.
  destruct a as [sa|sa| |sa ma ea], b as [sb|sb| |sb mb eb];
    try discriminate; intros _ _; cbn; discriminate.
Qed.

Lemma fle_refl a : is_nan a = false -> (a <=? a)%f32 = true.
Proof.
  destruct a as [s|[]| |s m e]; try discriminate; intros _; try reflexivity.
  unfold fle, SFleb, SFcompare.
  rewrite Z.compare_refl, Pos.compare_cont_refl. destruct s; reflexivity.
Qed.

Lemma flt_fle a b : (a <? b)%f32 = true -> (a <=? b)%f32 = true.
Proof.
  unfold flt, fle, SFltb, SFleb. destruct (SFcompare a b) as [[]|]; congruence.
Qed.

Lemma not_flt_fle a b :
  is_nan a = false -> is_nan b = false ->
  (a <? b)%f32 = false -> (b <=? a)%f32 = true.
Proof.
  intros Ha Hb. unfold flt, fle, SFltb, SFleb.
  rewrite (fcompare_antisym a b).
  pose proof (fcompare_ordered a b Ha Hb) as Ho.
  destruct (SFcompare a b) as [[]|]; cbn; congruence.
Qed.

(** One lane of MINPS and of MAXPS on two numbers. *)
Lemma fmin_lower a b :
  is_nan a = false -> is_nan b = false ->
  ((if (a <? b)%f32 then a else b) <=? a)%f32 = true /\
  ((if (a <? b)%f32 then a else b) <=? b)%f32 = true.
Proof.
  intros Ha Hb. destruct (a <? b)%f32 eqn:Hlt.
  - split; [apply fle_refl, Ha | apply flt_fle, Hlt].
  - split; [apply not_flt_fle; assumption | apply fle_refl, Hb].
Qed.

Lemma fmax_upper a b :
  is_nan a = false -> is_nan b = false ->
  (a <=? (if (b <? a)%f32 then a else b))%f32 = true /\
  (b <=? (if (b <? a)%f32 then a else b))%f32 = true.
Proof.
  intros Ha Hb. destruct (b <? a)%f32 eqn:Hlt.
  - split; [apply fle_refl, Ha | apply flt_fle, Hlt].
  - split; [apply not_flt_fle; assumption | apply fle_refl, Hb].
Qed.

Lemma vector_ordered_inv v : vector_ordered v = true ->
  is_nan v.(x) = false /\ is_nan v.(y) = false /\
  is_nan v.(z) = false /\ is_nan v.(w) = false.
Proof.
  unfold vector_ordered. intros H.
  repeat (apply andb_true_iff in H; destruct H as [H ?]).
  repeat split; apply negb_true_iff; assumption.
Qed.

(** Name the lanes of a vector, the entries of a matrix. *)
Ltac destruct_vector v :=
  let a := fresh "a" in let b := fresh "b" in
  let c := fresh "c" in let d := fresh "d" in
  destruct v as [a b c d].

Ltac destruct_matrix m :=
  let r0 := fresh "r" in let r1 := fresh "r" in
  let r2 := fresh "r" in let r3 := fresh "r" in
  destruct m as [r0 r1 r2 r3];
  destruct_vector r0; destruct_vector r1;
  destruct_vector r2; destruct_vector r3.

(** Close an equation of sums of products that differ in the order of the
    factors only. *)
Ltac commute_products :=
  repeat match goal with
  | |- fmul _ _ = fmul _ _ => apply fmul_comm
  | |- _ => f_equal
  end.

Ltac finite_matrix Hm :=
  unfold matrix_finite in Hm; cbn [row0 row1 row2 row3] in Hm;
  unfold vector_finite in Hm; cbn [x y z w] in Hm; finite_lanes.

(* ================================================================== *)
(** * Matrix transpose, product, transform *)
(* ================================================================== *)

(** The loops of [matrix_transpose] overwrite every entry of [mt]. *)
Lemma matrix_transpose_loops_init (r r' m : matrix_t) :
  matrix_transpose_loops r m = matrix_transpose_loops r' m.
Proof.
  destruct_matrix r; destruct_matrix r'; destruct_matrix m; reflexivity.
Qed.

Lemma matrix_transpose_frow (m : matrix_t) (i j : nat) :
  (i < 4)%nat -> (j < 4)%nat -> frow (matrix_transpose m) i j = frow m j i.
Proof.
  intros Hi Hj. destruct_matrix m.
  do 4 (destruct i as [|i]; [do 4 (destruct j as [|j]; [reflexivity|]); lia|]).
  lia.
Qed.

(** X1.  Transposing twice gives back the matrix exactly, for every
    matrix (infinite and NaN entries included). *)
Theorem matrix_transpose_involutive (m : matrix_t) :
  matrix_transpose (matrix_transpose m) = m.
Proof. destruct_matrix m; reflexivity. Qed.

(** X2.  The transpose of a product is the product of the transposes in
    the opposite order, exactly: every entry is the same sum of the same
    products, and binary32 multiplication is commutative. *)
Theorem matrix_transpose_mul (m0 m1 : matrix_t) :
  matrix_transpose (matrix_mul m0 m1)
  = matrix_mul (matrix_transpose m1) (matrix_transpose m0).
Proof. destruct_matrix m0; destruct_matrix m1. lanes. commute_products. Qed.

(** X3.  Row i of [matrix_mul m0 m1] is exactly [matrix_transform] of
    row i of m0 by m1: the product transforms the rows of its first
    operand. *)
Theorem matrix_mul_rows (m0 m1 : matrix_t) :
  matrix_mul m0 m1 =
  matrix_of_rows (matrix_transform m1 m0.(row0)) (matrix_transform m1 m0.(row1))
                 (matrix_transform m1 m0.(row2)) (matrix_transform m1 m0.(row3)).
Proof. destruct_matrix m0; destruct_matrix m1. lanes. commute_products. Qed.

(** X4.  For a vector v with finite lanes, [matrix_transform] and
    [matrix_rotate] by the identity matrix give v back up to the sign of
    a zero lane; [matrix_rotate] returns the w lane of v itself. *)
Theorem matrix_transform_identity (v : vector_t) :
  vector_finite v = true ->
  vector_same (matrix_transform matrix_identity v) v /\
  vector_same (matrix_rotate matrix_identity v) v /\
  (matrix_rotate matrix_identity v).(w) = v.(w).
Proof.
  intros Hv. apply vector_finite_inv in Hv.
  destruct_vector v; cbn [x y z w] in Hv.
  destruct Hv as ((? & ?) & (? & ?) & (? & ?) & (? & ?)).
  split; [|split]; lanes; repeat split; auto 8 with f32.
Qed.

Lemma matrix_transform_identity_witness :
  vector_finite quaternion_test = true /\
  vector_same (matrix_transform matrix_identity quaternion_test)
              quaternion_test /\
  vector_same (matrix_rotate matrix_identity quaternion_test)
              quaternion_test /\
  (matrix_rotate matrix_identity quaternion_test).(w) = quaternion_test.(w).
Proof.
  split; [reflexivity|].
  apply (matrix_transform_identity quaternion_test). reflexivity.
Defined.

(** X5.  For a direction (w lane a zero) and a matrix whose translation
    row has finite x, y, z entries, the x, y, z lanes of
    [matrix_transform] are those of [matrix_rotate] up to the sign of a
    zero: the translation does not move directions. *)
Theorem matrix_transform_direction (m : matrix_t) (v : vector_t) :
  is_zero v.(w) = true ->
  is_finite (frow m 3 0) = true -> is_finite (frow m 3 1) = true ->
  is_finite (frow m 3 2) = true ->
  vector_same3 (matrix_transform m v) (matrix_rotate m v).
Proof.
  destruct_matrix m. destruct_vector v.
  cbn [x y z w frow row component row3].
  intros Hw H0 H1 H2. lanes. repeat split; auto 8 with f32.
Qed.

Lemma matrix_transform_direction_witness :
  is_zero direction_1210.(w) = true /\
  is_finite (frow matrix_1_to_16 3 0) = true /\
  is_finite (frow matrix_1_to_16 3 1) = true /\
  is_finite (frow matrix_1_to_16 3 2) = true /\
  vector_same3 (matrix_transform matrix_1_to_16 direction_1210)
               (matrix_rotate matrix_1_to_16 direction_1210).
Proof.
  repeat (split; [reflexivity|]).
  apply (matrix_transform_direction matrix_1_to_16 direction_1210);
    reflexivity.
Defined.

(** X6.  A matrix with finite entries times the zero matrix, on either
    side, has a zero in every entry. *)
Theorem matrix_mul_zero (m : matrix_t) :
  matrix_finite m = true ->
  matrix_same (matrix_mul matrix_zero m) matrix_zero /\
  matrix_same (matrix_mul m matrix_zero) matrix_zero.
Proof.
  intros Hm. destruct_matrix m. finite_matrix Hm.
  split; lanes; repeat split; apply same_value_zeros; auto 8 with f32.
Qed.

Lemma matrix_mul_zero_witness :
  matrix_finite matrix_1_to_16 = true /\
  matrix_same (matrix_mul matrix_zero matrix_1_to_16) matrix_zero /\
  matrix_same (matrix_mul matrix_1_to_16 matrix_zero) matrix_zero.
Proof.
  split; [reflexivity|]. apply (matrix_mul_zero matrix_1_to_16). reflexivity.
Defined.

(* ================================================================== *)
(** * Matrix and vector addition and subtraction *)
(* ================================================================== *)

(** X7.  [vector_add], [quaternion_add] and [matrix_add] are commutative,
    exactly, for all operands. *)
Theorem add_commutative :
  (forall v0 v1, vector_add v0 v1 = vector_add v1 v0) /\
  (forall q0 q1, Generic.quaternion_add q0 q1 = Generic.quaternion_add q1 q0) /\
  (forall m0 m1, matrix_add m0 m1 = matrix_add m1 m0).
Proof.
  assert (H : forall v0 v1, vector_add v0 v1 = vector_add v1 v0).
  { intros v0 v1. destruct_vector v0; destruct_vector v1. lanes.
    f_equal; apply fadd_comm. }
  split; [exact H|]. split; [exact H|].
  intros m0 m1. unfold matrix_add. f_equal; apply H.
Qed.

(** X8.  A matrix with finite entries minus itself is exactly the zero
    matrix (+0 in every entry). *)
Theorem matrix_sub_self (m : matrix_t) :
  matrix_finite m = true -> matrix_sub m m = matrix_zero.
Proof.
  intros Hm. destruct_matrix m. finite_matrix Hm.
  lanes. rewrite !fsub_diag by assumption. reflexivity.
Qed.

Lemma matrix_sub_self_witness :
  matrix_finite matrix_1_to_16 = true /\
  matrix_sub matrix_1_to_16 matrix_1_to_16 = matrix_zero.
Proof.
  split; [reflexivity|]. apply (matrix_sub_self matrix_1_to_16). reflexivity.
Defined.

(** X9.  Subtracting the zero matrix gives back every matrix exactly;
    adding it gives the matrix back up to the sign of a zero entry
    (-0 + +0 is +0). *)
Theorem matrix_add_sub_zero (m : matrix_t) :
  matrix_sub m matrix_zero = m /\
  matrix_same (matrix_add m matrix_zero) m.
Proof.
  destruct_matrix m. split; lanes.
  - rewrite !fsub_zero_r. reflexivity.
  - repeat split; auto with f32.
Qed.

(** X10.  Transposition commutes with [matrix_add] and [matrix_sub],
    exactly. *)
Theorem matrix_transpose_add (m0 m1 : matrix_t) :
  matrix_transpose (matrix_add m0 m1)
    = matrix_add (matrix_transpose m0) (matrix_transpose m1) /\
  matrix_transpose (matrix_sub m0 m1)
    = matrix_sub (matrix_transpose m0) (matrix_transpose m1).
Proof. destruct_matrix m0; destruct_matrix m1; split; reflexivity. Qed.

(* ================================================================== *)
(** * Dot and cross products, lerp, min and max, scaling *)
(* ================================================================== *)

(** X11.  [vector_dot] and [vector_dot3] are symmetric in their
    arguments, exactly, and return the same scalar in all four lanes. *)
Theorem vector_dot_symmetric (v0 v1 : vector_t) :
  vector_dot v0 v1 = vector_dot v1 v0 /\
  vector_dot3 v0 v1 = vector_dot3 v1 v0 /\
  vector_dot v0 v1 = _mm_set1_ps (vector_dot v0 v1).(x) /\
  vector_dot3 v0 v1 = _mm_set1_ps (vector_dot3 v0 v1).(x).
Proof.
  rewrite !vector_dot_lanes, !vector_dot3_lanes.
  rewrite !(fmul_comm v1.(x)), !(fmul_comm v1.(y)),
          !(fmul_comm v1.(z)), !(fmul_comm v1.(w)).
  repeat split.
Qed.


(** X13.  The cross product is antisymmetric up to the sign of a zero:
    every lane of [vector_cross3 v1 v0] is the lane of
    [vector_neg (vector_cross3 v0 v1)], for all operands. *)
Theorem vector_cross3_antisymmetric (v0 v1 : vector_t) :
  vector_same (vector_cross3 v1 v0) (vector_neg (vector_cross3 v0 v1)).
Proof.
  rewrite !vector_cross3_lanes. destruct_vector v0; destruct_vector v1.
  lanes.
  repeat split;
    (eapply same_value_trans; [|apply same_value_sym, fsub_zero_l_same]);
    match goal with
    | |- same_value (fsub (fmul ?p ?q) (fmul ?r ?s)) _ =>
        rewrite (fmul_comm p q); try rewrite (fmul_comm r s)
    end; apply fsub_antisym.
Qed.

(** X14.  The cross product of a vector with itself is exactly the zero
    vector whenever the lane products y*z, z*x, x*y and w*w are finite
    (do not overflow). *)
Theorem vector_cross3_self (v : vector_t) :
  is_finite (v.(y) * v.(z))%f32 = true ->
  is_finite (v.(z) * v.(x))%f32 = true ->
  is_finite (v.(x) * v.(y))%f32 = true ->
  is_finite (v.(w) * v.(w))%f32 = true ->
  vector_cross3 v v = vector_zero.
Proof.
  intros Hx Hy Hz Hw. rewrite vector_cross3_lanes.
  rewrite (fmul_comm v.(z) v.(y)), (fmul_comm v.(x) v.(z)),
          (fmul_comm v.(y) v.(x)).
  rewrite !fsub_diag by assumption. reflexivity.
Qed.

Lemma vector_cross3_self_witness :
  is_finite (quaternion_test.(y) * quaternion_test.(z))%f32 = true /\
  is_finite (quaternion_test.(z) * quaternion_test.(x))%f32 = true /\
  is_finite (quaternion_test.(x) * quaternion_test.(y))%f32 = true /\
  is_finite (quaternion_test.(w) * quaternion_test.(w))%f32 = true /\
  vector_cross3 quaternion_test quaternion_test = vector_zero.
Proof.
  repeat (split; [reflexivity|]).
  apply (vector_cross3_self quaternion_test); reflexivity.
Defined.

(** X15.  For finite endpoints, [vector_lerp] at factor 0 returns [from]
    and at factor 1 returns [to], up to the sign of a zero lane. *)
Theorem vector_lerp_endpoints (from to : vector_t) :
  vector_finite from = true -> vector_finite to = true ->
  vector_same (vector_lerp from to zero) from /\
  vector_same (vector_lerp from to one) to.
Proof.
  intros Hf Ht. apply vector_finite_inv in Hf, Ht.
  destruct_vector from; destruct_vector to; cbn [x y z w] in Hf, Ht.
  destruct Hf as ((? & ?) & (? & ?) & (? & ?) & (? & ?)).
  destruct Ht as ((? & ?) & (? & ?) & (? & ?) & (? & ?)).
  split; lanes.
  - repeat split; auto 8 with f32.
  - rewrite !fmul_one_l, !fsub_diag by assumption.
    repeat split; auto 8 with f32.
Qed.

Lemma vector_lerp_endpoints_witness :
  vector_finite quaternion_test = true /\ vector_finite unit_i = true /\
  vector_same (vector_lerp quaternion_test unit_i zero) quaternion_test /\
  vector_same (vector_lerp quaternion_test unit_i one) unit_i.
Proof.
  do 2 (split; [reflexivity|]).
  apply (vector_lerp_endpoints quaternion_test unit_i); reflexivity.
Defined.

(** X16.  When no lane of either operand is a NaN, every lane of
    [vector_min] is below or equal to the same lane of both operands,
    and every lane of [vector_max] is above or equal to both. *)
Theorem vector_min_max_bounds (v0 v1 : vector_t) :
  vector_ordered v0 = true -> vector_ordered v1 = true ->
  vector_leb (vector_min v0 v1) v0 = true /\
  vector_leb (vector_min v0 v1) v1 = true /\
  vector_leb v0 (vector_max v0 v1) = true /\
  vector_leb v1 (vector_max v0 v1) = true.
Proof.
  intros H0 H1. apply vector_ordered_inv in H0, H1.
  destruct_vector v0; destruct_vector v1; cbn [x y z w] in H0, H1.
  destruct H0 as (? & ? & ? & ?), H1 as (? & ? & ? & ?).
  unfold vector_leb, vector_min, vector_max, _mm_min_ps, _mm_max_ps, lanewise.
  cbn [x y z w].
  repeat match goal with
  | |- context [if (?p <? ?q)%f32 then ?p else ?q] =>
      destruct (fmin_lower p q) as [-> ->]; try assumption
  | |- context [if (?q <? ?p)%f32 then ?p else ?q] =>
      destruct (fmax_upper p q) as [-> ->]; try assumption
  end.
  repeat split.
Qed.

Lemma vector_min_max_bounds_witness :
  vector_ordered quaternion_test = true /\ vector_ordered unit_i = true /\
  vector_leb (vector_min quaternion_test unit_i) quaternion_test = true /\
  vector_leb (vector_min quaternion_test unit_i) unit_i = true /\
  vector_leb quaternion_test (vector_max quaternion_test unit_i) = true /\
  vector_leb unit_i (vector_max quaternion_test unit_i) = true.
Proof.
  do 2 (split; [reflexivity|]).
  apply (vector_min_max_bounds quaternion_test unit_i); reflexivity.
Defined.

(** X17.  [vector_min] and [vector_max] are not symmetric on NaN: with
    NaN in every lane of the first operand the second operand comes
    back, with NaN in every lane of the second operand the result is
    NaN in every lane. *)
Theorem vector_min_max_nan (v : vector_t) :
  vector_min (_mm_set1_ps nan) v = v /\ vector_max (_mm_set1_ps nan) v = v /\
  vector_min v (_mm_set1_ps nan) = _mm_set1_ps nan /\
  vector_max v (_mm_set1_ps nan) = _mm_set1_ps nan.
Proof. destruct v as [[] [] [] []]; repeat split. Qed.

(** X18.  On a vector of well-formed lanes (infinities and NaN included),
    scaling by 1 and multiplying by [vector_one] on either side give the
    vector back exactly. *)
Theorem vector_scale_one (v : vector_t) :
  vector_valid v = true ->
  vector_scale v one = v /\ vector_mul v vector_one = v /\
  vector_mul vector_one v = v.
Proof.
  unfold vector_valid. intros Hv.
  repeat (apply andb_true_iff in Hv; destruct Hv as [Hv ?]).
  destruct_vector v; cbn [x y z w] in *.
  lanes. rewrite !fmul_one_r, !fmul_one_l by assumption. repeat split.
Qed.

Lemma vector_scale_one_witness :
  vector_valid quaternion_test = true /\
  vector_scale quaternion_test one = quaternion_test /\
  vector_mul quaternion_test vector_one = quaternion_test /\
  vector_mul vector_one quaternion_test = quaternion_test.
Proof.
  split; [reflexivity|]. apply (vector_scale_one quaternion_test). reflexivity.
Defined.

(* ================================================================== *)
(** * Quaternions: the two backends, inverse, slerp, rotation *)
(* ================================================================== *)

(** X19.  The SSE2 and the generic [quaternion_conjugate] agree on every
    quaternion up to the sign of a zero in the x, y, z lanes, and both
    return the w lane of the input itself. *)
Theorem quaternion_conjugate_backends (q : quaternion_t) :
  vector_same (SSE2.quaternion_conjugate q) (Generic.quaternion_conjugate q) /\
  (SSE2.quaternion_conjugate q).(w) = q.(w) /\
  (Generic.quaternion_conjugate q).(w) = q.(w).
Proof.
  destruct_vector q. split; [|split; reflexivity].
  lanes. repeat split; try apply fsub_zero_l_same. apply same_value_refl.
Qed.

(** X20.  The SSE2 and the generic [quaternion_inverse] agree on every
    quaternion up to the sign of a zero in the x, y, z lanes, and have
    the same w lane exactly. *)
Theorem quaternion_inverse_backends (q : quaternion_t) :
  vector_same (SSE2.quaternion_inverse q) (Generic.quaternion_inverse q) /\
  (SSE2.quaternion_inverse q).(w) = (Generic.quaternion_inverse q).(w).
Proof.
  destruct_vector q. split; [|reflexivity].
  lanes. repeat split; try (rewrite fmul_fneg_r; apply fsub_zero_l_same).
  apply same_value_refl.
Qed.

(** X21.  The generic [quaternion_inverse] is exactly the conjugate
    scaled by 1/|q|^2, the squared norm being the x lane of
    [vector_length_sqr]. *)
Theorem quaternion_inverse_conjugate (q : quaternion_t) :
  Generic.quaternion_inverse q =
  vector_scale (Generic.quaternion_conjugate q)
               (one / (vector_length_sqr q).(x))%f32.
Proof.
  destruct_vector q. lanes.
  rewrite !fmul_fneg_l, !fmul_fneg_r. reflexivity.
Qed.

(** X22.  When the cosine dot(q0,q1) is negative, [quaternion_slerp]
    towards q1 is exactly [quaternion_slerp] towards [quaternion_neg q1],
    for every factor and whatever the math routines are. *)
Theorem quaternion_slerp_negated_target
    (math_acos math_sin : float32_t -> float32_t)
    (math_realzero : float32_t -> bool) (REAL_PI : float32_t)
    (q0 q1 : quaternion_t) (factor : float32_t) :
  ((vector_dot q0 q1).(x) <? zero)%f32 = true ->
  Generic.quaternion_slerp math_acos math_sin math_realzero REAL_PI
    q0 q1 factor
  = Generic.quaternion_slerp math_acos math_sin math_realzero REAL_PI
      q0 (Generic.quaternion_neg q1) factor.
Proof.
  intros Hneg. unfold Generic.quaternion_slerp, Generic.quaternion_neg.
  rewrite Hneg, (vector_dot_neg q0 q1 Hneg), (flt_fneg_negative _ Hneg).
  reflexivity.
Qed.

Lemma quaternion_slerp_negated_target_witness :
  ((vector_dot unit_i unit_i_negated).(x) <? zero)%f32 = true /\
  Generic.quaternion_slerp (fun a => a) (fun a => a) (fun _ => false) two
    unit_i unit_i_negated half
  = Generic.quaternion_slerp (fun a => a) (fun a => a) (fun _ => false) two
      unit_i (Generic.quaternion_neg unit_i_negated) half.
Proof.
  split; [reflexivity|].
  apply (quaternion_slerp_negated_target (fun a => a) (fun a => a)
           (fun _ => false) two unit_i unit_i_negated half).
  reflexivity.
Defined.

(** X23.  The generic [quaternion_rotate] by the identity quaternion
    gives back the x, y, z lanes of a vector with finite lanes, up to
    the sign of a zero, and 1 in the w lane. *)
Theorem quaternion_rotate_identity (v : vector_t) :
  vector_finite v = true ->
  vector_same3 (Generic.quaternion_rotate Generic.quaternion_identity v) v /\
  (Generic.quaternion_rotate Generic.quaternion_identity v).(w) = one.
Proof.
  intros Hv. apply vector_finite_inv in Hv.
  destruct_vector v; cbn [x y z w] in Hv.
  destruct Hv as ((? & ?) & (? & ?) & (? & ?) & (? & ?)).
  split; [|reflexivity].
  lanes. repeat split; auto 9 with f32.
Qed.

Lemma quaternion_rotate_identity_witness :
  vector_finite quaternion_test = true /\
  vector_same3
    (Generic.quaternion_rotate Generic.quaternion_identity quaternion_test)
    quaternion_test /\
  (Generic.quaternion_rotate Generic.quaternion_identity quaternion_test).(w)
    = one.
Proof.
  split; [reflexivity|].
  apply (quaternion_rotate_identity quaternion_test). reflexivity.
Defined.

(** X24.  The identity quaternion is a two-sided identity of the SSE2
    [quaternion_mul] as well: for q with finite lanes both products
    give q back up to the sign of a zero lane. *)
Theorem sse2_quaternion_mul_identity (q : quaternion_t) :
  vector_finite q = true ->
  vector_same (SSE2.quaternion_mul q Generic.quaternion_identity) q /\
  vector_same (SSE2.quaternion_mul Generic.quaternion_identity q) q.
Proof.
  intros Hq. apply vector_finite_inv in Hq.
  destruct_vector q; cbn [x y z w] in Hq.
  destruct Hq as ((? & ?) & (? & ?) & (? & ?) & (? & ?)).
  split; lanes; repeat split; auto 8 with f32.
Qed.

Lemma sse2_quaternion_mul_identity_witness :
  vector_finite quaternion_test = true /\
  vector_same (SSE2.quaternion_mul quaternion_test Generic.quaternion_identity)
              quaternion_test /\
  vector_same (SSE2.quaternion_mul Generic.quaternion_identity quaternion_test)
              quaternion_test.
Proof.
  split; [reflexivity|].
  apply (sse2_quaternion_mul_identity quaternion_test). reflexivity.
Defined.
